(** * main_pandas.py: data loading, strategy registry and dispatch

    A shallow embedding of [src/main_pandas.py].  The script has three
    parts, and the development follows them:

    - the start-up loop that reads one CSV file per ticker and builds the
      shared dataset pool [pandas_data] (lines 40-78);
    - the static registry [mapping] (lines 81-132);
    - the [__main__] block, which dispatches every requested strategy
      either to the live path or to the backtest path (lines 134-218).

    Python dictionaries with string keys are [gmap string _]; the dataset
    pool, whose iteration order is observable through [list(pandas_data)],
    is an insertion-ordered association list.  The script's effects are
    threaded through a state-and-exception monad; calls into external
    collaborators (strategy constructors, [Trader], the backtest entry
    point, [indicators.calculate_returns], [print], [logging]) are
    recorded, with their arguments, in a trace.  The collaborators are
    taken to return normally and to leave the pool as they found it:
    nothing is caught at this layer, so a collaborator that raised would
    merely cut the trace at that call. *)

From Stdlib Require Import QArith Qround.
From stdpp Require Import gmap strings list fin_maps pretty sorting.

Open Scope Z_scope.

(** ** Python values shared by the three parts *)

(** Exceptions the script can raise, by Python class. *)
Inductive exn :=
| ValueError (msg : string)
| AttributeError (msg : string)
| KeyError (key : string)
| TypeError (msg : string)
| FileNotFoundError (path : string)
| EmptyDataError
| ParserError.

(** A computation that either returns or raises. *)
Inductive outcome (A : Type) :=
| Ok (a : A)
| Raise (e : exn).
Arguments Ok {A} a.
Arguments Raise {A} e.

Definition obind {A B} (o : outcome A) (k : A -> outcome B) : outcome B :=
  match o with
  | Ok a => k a
  | Raise e => Raise e
  end.

(** Timestamps are integers (nanoseconds since the epoch, the way pandas
    stores them); [datetime.datetime(y, m, d)] is midnight of that civil
    day. *)
Definition days_from_civil (y m d : Z) : Z :=
  let y' := if m <=? 2 then y - 1 else y in
  let era := y' / 400 in
  let yoe := y' - era * 400 in
  let mp := if 2 <? m then m - 3 else m + 9 in
  let doy := (153 * mp + 2) / 5 + d - 1 in
  let doe := yoe * 365 + yoe / 4 - yoe / 100 + doy in
  era * 146097 + doe - 719468.

Definition ns_per_day : Z := 86400 * 1000000000.

Definition datetime (y m d : Z) : Z := days_from_civil y m d * ns_per_day.

(** [Asset(symbol=..., asset_type=...)]: equality by value. *)
Record Asset := mkAsset { symbol : string; asset_type : string }.

Global Instance Asset_eq_dec : EqDecision Asset.
Proof. solve_decision. Defined.

(** ** DataLoader (lines 40-78) *)

Module DataLoader.

(** A CSV cell as the parser types it: a date, a number, or text. *)
Inductive cell :=
| CDate (t : Z)
| CNum (q : Q)
| CText (s : string).

(** A file is its lines, header first; the file system maps a path to
    the file found there, if any. *)
Definition csv_file := list (list cell).
Definition filesystem := string -> option csv_file.

(** A data frame: a named date index, column labels, and one row per
    index entry holding the values in column order. *)
Record DataFrame := mkDF {
  index_name : string;
  columns : list string;
  rows : list (Z * list Q)
}.

(** The keyword arguments of the [pd.read_csv] call. *)
Definition usecols : list nat := [0; 1; 2; 3; 4; 6]%nat.
Definition names : list string :=
  ["Date"; "Open"; "High"; "Low"; "Close"; "Volume"].

Definition as_num (c : cell) : option Q :=
  match c with
  | CNum q => Some q
  | _ => None
  end.

(** One line of the file: keep the positions listed in [usecols]; the
    first kept cell is the index ([index_col=0], [parse_dates=True]).
    The model covers lines of the shape date, four numbers, any cell, a
    number: on a shorter line, a text cell or an unparsed date pandas
    still builds a row (padded, or read as text), which this frame of
    dates and numbers cannot hold, so the model stops there. *)
Definition parse_row (line : list cell) : option (Z * list Q) :=
  match mapM (fun i => line !! i) usecols with
  | Some (CDate t :: vs) =>
      match mapM as_num vs with
      | Some qs => Some (t, qs)
      | None => None
      end
  | _ => None
  end.

(** [pd.read_csv(path, parse_dates=True, index_col=0, header=0,
    usecols=[0, 1, 2, 3, 4, 6], names=[...])]: with [header=0] and
    explicit [names], line 0 is consumed and replaced by [names].  A
    missing file raises; an empty file, and a file with a line outside
    the shape [parse_row] covers, are outside the model and end it with
    an exception that pandas itself need not raise.  The properties
    below are stated for files the loader accepts. *)
Definition read_csv (fs : filesystem) (path : string) : outcome DataFrame :=
  match fs path with
  | None => Raise (FileNotFoundError path)
  | Some [] => Raise EmptyDataError
  | Some (_ :: body) =>
      match mapM parse_row body with
      | Some rs => Ok (mkDF (hd "" names) (tl names) rs)
      | None => Raise ParserError
      end
  end.

(** [df.rename(columns={...})]: labels found in the dictionary are
    replaced, the others are kept. *)
Definition rename_map : gmap string string :=
  list_to_map [("Date", "date"); ("Open", "open"); ("High", "high");
               ("Low", "low"); ("Close", "close"); ("Volume", "volume")].

Definition rename (ren : gmap string string) (df : DataFrame) : DataFrame :=
  mkDF (index_name df)
       ((fun c => default c (ren !! c)) <$> columns df)
       (rows df).

(** Position of a column label. *)
Fixpoint col_index (c : string) (cols : list string) : option nat :=
  match cols with
  | [] => None
  | c' :: cols' => if decide (c = c') then Some 0%nat
                   else S <$> col_index c cols'
  end.

(** [df[[c1, ..., cn]]]: the listed columns in the listed order; a label
    that is not a column raises [KeyError]. *)
Definition select (want : list string) (df : DataFrame) : outcome DataFrame :=
  match mapM (fun c => col_index c (columns df)) want with
  | None => Raise (KeyError "not in index")
  | Some idx =>
      match mapM (fun r : Z * list Q =>
                    vs ← mapM (fun i => r.2 !! i) idx; Some (r.1, vs))
                 (rows df) with
      | Some rs => Ok (mkDF (index_name df) want rs)
      | None => Raise (KeyError "not in index")
      end
  end.

Definition canonical : list string :=
  ["open"; "high"; "low"; "close"; "volume"].

(** [df.index.name = "datetime"]. *)
Definition set_index_name (n : string) (df : DataFrame) : DataFrame :=
  mkDF n (columns df) (rows df).

(** [lumibot.entities.Data]: a dataset for one asset, carrying the
    mutable owning-strategy label. *)
Record Data := mkData {
  strategy : string;
  asset : Asset;
  df : DataFrame;
  date_start : Z;
  date_end : Z;
  timestep : string
}.

Definition by_date : relation (Z * list Q) := fun r1 r2 => r1.1 <= r2.1.

Global Instance by_date_dec r1 r2 : Decision (by_date r1 r2).
Proof. unfold by_date. apply _. Defined.

Definition in_window (lo hi : Z) (r : Z * list Q) : Prop :=
  lo <= r.1 /\ r.1 <= hi.

Global Instance in_window_dec lo hi r : Decision (in_window lo hi r).
Proof. unfold in_window. apply _. Defined.

(** Modelled from the spec: the constructor of [lumibot.entities.Data]
    is not part of the source file.  Following section 4.1 it "sorts
    ascending by date" and "restricts to the strategy-relevant horizon",
    the closed interval from [date_start] to [date_end]. *)
Definition Data_init (strategy : string) (asset : Asset) (df : DataFrame)
    (date_start date_end : Z) (timestep : string) : Data :=
  mkData strategy asset
    (mkDF (index_name df) (columns df)
       (filter (in_window date_start date_end)
          (merge_sort by_date (rows df))))
    date_start date_end timestep.

(** The pool [pandas_data]: a dictionary keyed by [Asset], in insertion
    order. *)
Definition Pool := list (Asset * Data).

(** [d[k] = v] on an insertion-ordered dictionary. *)
Fixpoint dict_set (k : Asset) (v : Data) (d : Pool) : Pool :=
  match d with
  | [] => [(k, v)]
  | (k', v') :: d' =>
      if decide (k = k') then (k, v) :: d' else (k', v') :: dict_set k v d'
  end.

Definition tickers : list string := ["SPY"; "DJP"; "TLT"; "GLD"; "IEF"].

Definition load_date_start : Z := datetime 2019 1 6.
Definition load_date_end : Z := datetime 2019 12 15.

(** The body of the loop over [tickers] (lines 43-78). *)
Definition load_ticker (fs : filesystem) (ticker : string)
    : outcome (Asset * Data) :=
  let asset := mkAsset ticker "stock" in
  obind (read_csv fs ("data/" +:+ ticker +:+ ".csv")) (fun df =>
  let df := rename rename_map df in
  obind (select canonical df) (fun df =>
  let df := set_index_name "datetime" df in
  Ok (asset,
      Data_init "my_strategy" asset df load_date_start load_date_end "day"))).

Fixpoint load_loop (fs : filesystem) (ts : list string) (pool : Pool)
    : outcome Pool :=
  match ts with
  | [] => Ok pool
  | t :: ts' =>
      obind (load_ticker fs t) (fun kv =>
      load_loop fs ts' (dict_set kv.1 kv.2 pool))
  end.

(** The pool after start-up: [pandas_data = dict()] then the loop. *)
Definition load_pool (fs : filesystem) : outcome Pool :=
  load_loop fs tickers [].

End DataLoader.

(** ** StrategyRegistry (lines 80-132) *)

Module Registry.
Import DataLoader.

Inductive StrategyClass :=
| BuyAndHold
| DebtTrading
| Diversification
| FastTrading
| IntradayMomentum
| Momentum
| Simple.

(** [cls.__name__]. *)
Definition class_name (c : StrategyClass) : string :=
  match c with
  | BuyAndHold => "BuyAndHold"
  | DebtTrading => "DebtTrading"
  | Diversification => "Diversification"
  | FastTrading => "FastTrading"
  | IntradayMomentum => "IntradayMomentum"
  | Momentum => "Momentum"
  | Simple => "Simple"
  end.

Inductive DataSource :=
| YahooDataBacktesting
| PandasDataBacktesting.

(** The values stored in registry entries.  [PyPool] is the reference to
    the one dictionary object created at line 40: every entry that binds
    [pandas_data] holds this same reference, not a copy. *)
Inductive pyval :=
| PyNone
| PyBool (b : bool)
| PyClass (c : StrategyClass)
| PySource (d : DataSource)
| PyKwargs (kw : gmap string (list Asset))
| PyPool.

(** [list(pandas_data)]: the keys, in insertion order. *)
Definition keys (pool : Pool) : list Asset := pool.*1.

(** The entries of the dictionary literal [mapping], one definition per
    key; [pool] is the content of [pandas_data] when the literal is
    evaluated. *)
Definition momentum_pandas (pool : Pool) : gmap string pyval :=
  list_to_map [
    ("class", PyClass Momentum);
    ("backtesting_datasource", PySource PandasDataBacktesting);
    ("kwargs", PyKwargs {[ "symbols" := keys pool ]});
    ("config", PyNone);
    ("pandas_data", PyPool)].

Definition diversification : gmap string pyval :=
  list_to_map [
    ("class", PyClass Diversification);
    ("backtesting_datasource", PySource PandasDataBacktesting);
    ("kwargs", PyKwargs ∅);
    ("config", PyNone);
    ("pandas_data", PyPool)].

Definition debt_trading : gmap string pyval :=
  list_to_map [
    ("class", PyClass DebtTrading);
    ("backtesting_datasource", PySource YahooDataBacktesting);
    ("kwargs", PyKwargs ∅);
    ("config", PyNone);
    ("pandas_data", PyNone)].

Definition intraday_momentum : gmap string pyval :=
  list_to_map [
    ("class", PyClass IntradayMomentum);
    ("backtesting_datasource", PyNone);
    ("kwargs", PyKwargs ∅);
    ("config", PyNone)].

Definition fast_trading : gmap string pyval :=
  list_to_map [
    ("class", PyClass FastTrading);
    ("backtesting_datasource", PyNone);
    ("kwargs", PyKwargs ∅);
    ("backtesting_cache", PyBool false);
    ("config", PyNone)].

Definition buy_and_hold : gmap string pyval :=
  list_to_map [
    ("class", PyClass BuyAndHold);
    ("backtesting_datasource", PySource PandasDataBacktesting);
    ("kwargs", PyKwargs ∅);
    ("backtesting_cache", PyBool false);
    ("config", PyNone);
    ("pandas_data", PyPool)].

Definition simple : gmap string pyval :=
  list_to_map [
    ("class", PyClass Simple);
    ("backtesting_datasource", PySource PandasDataBacktesting);
    ("kwargs", PyKwargs ∅);
    ("backtesting_cache", PyBool false);
    ("config", PyNone);
    ("pandas_data", PyPool)].

Definition mapping_items (pool : Pool) : list (string * gmap string pyval) :=
  [("momentum_pandas", momentum_pandas pool);
   ("diversification", diversification);
   ("debt_trading", debt_trading);
   ("intraday_momentum", intraday_momentum);
   ("fast_trading", fast_trading);
   ("buy_and_hold", buy_and_hold);
   ("simple", simple)].

(** [mapping]. *)
Definition mapping (pool : Pool) : gmap string (gmap string pyval) :=
  list_to_map (mapping_items pool).

Definition registered : list string :=
  ["momentum_pandas"; "diversification"; "debt_trading";
   "intraday_momentum"; "fast_trading"; "buy_and_hold"; "simple"].

(** [d[k]]: a missing key raises [KeyError]. *)
Definition getitem (d : gmap string pyval) (k : string) : outcome pyval :=
  match d !! k with
  | Some v => Ok v
  | None => Raise (KeyError k)
  end.

(** [k in d]. *)
Definition contains (d : gmap string pyval) (k : string) : bool :=
  bool_decide (is_Some (d !! k)).

(** The five locals read from an entry at lines 164-170. *)
Record StrategyParams := mkParams {
  strategy_class : pyval;
  backtesting_datasource : pyval;
  pandas_data : pyval;
  kwargs : pyval;
  config : pyval
}.

(** Lines 164-170: four subscripts, and the guarded read of the optional
    ["pandas_data"] key. *)
Definition resolve (strategy_params : gmap string pyval)
    : outcome StrategyParams :=
  obind (getitem strategy_params "class") (fun strategy_class =>
  obind (getitem strategy_params "backtesting_datasource")
    (fun backtesting_datasource =>
  obind (if contains strategy_params "pandas_data"
         then getitem strategy_params "pandas_data"
         else Ok PyNone) (fun pandas_data =>
  obind (getitem strategy_params "kwargs") (fun kwargs =>
  obind (getitem strategy_params "config") (fun config =>
  Ok (mkParams strategy_class backtesting_datasource pandas_data
               kwargs config)))))).

End Registry.

(** ** Dispatcher and StatsCollector (lines 24-34 and 134-218) *)

Module Dispatcher.
Import DataLoader Registry.

(** Global parameters. *)
Definition budget : Z := 40000.
Definition backtesting_start : Z := datetime 2019 2 28.
Definition backtesting_end : Z := datetime 2019 12 1.
Definition benchmark_asset : string := "SPY".

(** [alpaca_broker = Alpaca(AlpacaConfig)]: the one broker object. *)
Inductive Broker := alpaca_broker.

(** What a strategy constructor was called with (line 174-180). *)
Record StrategyInstance := mkInstance {
  inst_class : StrategyClass;
  inst_name : string;
  inst_budget : Z;
  inst_broker : Broker;
  inst_stats_file : string;
  inst_kwargs : gmap string (list Asset)
}.

(** What the backtest entry point was called with (lines 193-203);
    [bt_pandas_data] is the content of the pool at the time of the
    call, when the argument is the pool. *)
Record BacktestCall := mkBacktest {
  bt_class : StrategyClass;
  bt_name : string;
  bt_budget : Z;
  bt_datasource : pyval;
  bt_start : Z;
  bt_end : Z;
  bt_pandas_data : option Pool;
  bt_stats_file : string;
  bt_config : pyval;
  bt_kwargs : gmap string (list Asset)
}.

(** Calls into the collaborators, in the order they are made. *)
Inductive event :=
| EvConstruct (inst : StrategyInstance)
| EvAddStrategy (inst : StrategyInstance)
| EvRunAll (insts : list StrategyInstance)
| EvBacktest (call : BacktestCall)
| EvPrintElapsed (elapsed : Q)
| EvCalculateReturns (sym : string) (start stop : Z)
| EvLogInfo (msg : string)
| EvPrintCounter (counter : string) (seconds : Q).

(** The environment: what the clocks read at their k-th call, what the
    k-th call of the backtest entry point returns, and the content of
    [perf_counters.counters] at shutdown, each counter with the first of
    its values.  Floats are read as the rationals they denote, and the
    difference [toc - tic] of line 205 is taken exactly: the float that
    Python prints is that difference rounded, of the same sign. *)
Record Env := mkEnv {
  time_at : nat -> Q;
  perf_counter_at : nat -> Q;
  backtest_result : nat -> Q;
  counters : list (string * Q)
}.

(** The mutable state: the content of the shared pool object, the
    strategies registered with [trader], the trace, how often each
    oracle has been consulted, and the module-level variable
    [stats_file] ([None] while it is unbound). *)
Record world := mkWorld {
  pool : Pool;
  trader : list StrategyInstance;
  trace : list event;
  time_calls : nat;
  perf_calls : nat;
  backtest_calls : nat;
  stats_file : option string
}.

Definition init_world (p : Pool) : world :=
  mkWorld p [] [] 0 0 0 None.

(** State and exceptions. *)
Definition M (A : Type) : Type := world -> outcome A * world.

Global Instance M_ret : MRet M := fun A a w => (Ok a, w).

Global Instance M_bind : MBind M := fun A B k m w =>
  match m w with
  | (Ok a, w') => k a w'
  | (Raise e, w') => (Raise e, w')
  end.

Definition raise {A} (e : exn) : M A := fun w => (Raise e, w).

Definition lift {A} (o : outcome A) : M A := fun w => (o, w).

Definition emit (ev : event) : M unit := fun w =>
  (Ok tt, mkWorld (pool w) (trader w) (trace w ++ [ev])
                  (time_calls w) (perf_calls w) (backtest_calls w)
                  (stats_file w)).

(** [int(x)] on a float: truncation toward zero. *)
Definition py_int (x : Q) : Z := Z.quot (Qnum x) (Z.pos (Qden x)).

(** The f-string of line 172, given the class name and the reading of
    [time()]. *)
Definition stats_file_path (cname : string) (t : Q) : string :=
  "logs/strategy_" +:+ cname +:+ "_" +:+ pretty (py_int t) +:+ ".csv".

(** [for data in pool.values(): data.strategy = name]. *)
Definition set_strategy (name : string) (d : Data) : Data :=
  mkData name (asset d) (df d) (date_start d) (date_end d) (timestep d).

Definition relabel_pool (name : string) (p : Pool) : Pool :=
  (fun kv : Asset * Data => (kv.1, set_strategy name kv.2)) <$> p.

Definition labels (p : Pool) : list string := (fun kv => strategy kv.2) <$> p.

Section WithEnv.
Variable env : Env.
Variable registry : gmap string (gmap string pyval).

(** [time()]. *)
Definition time : M Q := fun w =>
  (Ok (time_at env (time_calls w)),
   mkWorld (pool w) (trader w) (trace w)
           (S (time_calls w)) (perf_calls w) (backtest_calls w)
           (stats_file w)).

(** [perf_counter()]. *)
Definition perf_counter : M Q := fun w =>
  (Ok (perf_counter_at env (perf_calls w)),
   mkWorld (pool w) (trader w) (trace w)
           (time_calls w) (S (perf_calls w)) (backtest_calls w)
           (stats_file w)).

(** [stats_file = ...]: the assignment of line 172. *)
Definition assign_stats_file (path : string) : M unit := fun w =>
  (Ok tt, mkWorld (pool w) (trader w) (trace w)
                  (time_calls w) (perf_calls w) (backtest_calls w)
                  (Some path)).

(** [v.__name__]. *)
Definition dunder_name (v : pyval) : M string :=
  match v with
  | PyClass c => mret (class_name c)
  | _ => raise (AttributeError "object has no attribute '__name__'")
  end.

(** [strategy_class(strategy_name, budget=budget, broker=alpaca_broker,
    stats_file=stats_file, **kwargs)]. *)
Definition construct (cls : pyval) (name : string) (b : Z) (br : Broker)
    (path : string) (kw : pyval) : M StrategyInstance :=
  match cls, kw with
  | PyClass c, PyKwargs k =>
      let inst := mkInstance c name b br path k in
      emit (EvConstruct inst) ;; mret inst
  | PyClass _, _ => raise (TypeError "argument after ** must be a mapping")
  | _, _ => raise (TypeError "object is not callable")
  end.

(** [trader.add_strategy(strategy)]. *)
Definition add_strategy (inst : StrategyInstance) : M unit := fun w =>
  (Ok tt, mkWorld (pool w) (trader w ++ [inst])
                  (trace w ++ [EvAddStrategy inst])
                  (time_calls w) (perf_calls w) (backtest_calls w)
                  (stats_file w)).

(** [trader.run_all()]. *)
Definition run_all : M unit := fun w => emit (EvRunAll (trader w)) w.

(** Lines 189-190: [pandas_data.values()] exists only on the dictionary;
    the loop then rewrites every dataset of the shared object. *)
Definition relabel (pandas_data : pyval) (name : string) : M unit :=
  match pandas_data with
  | PyPool => fun w =>
      (Ok tt, mkWorld (relabel_pool name (pool w)) (trader w) (trace w)
                      (time_calls w) (perf_calls w) (backtest_calls w)
                      (stats_file w))
  | PyNone =>
      raise (AttributeError "'NoneType' object has no attribute 'values'")
  | _ => raise (AttributeError "object has no attribute 'values'")
  end.

(** [strategy_class.backtest(strategy_name, budget,
    backtesting_datasource, backtesting_start, backtesting_end,
    pandas_data=pandas_data, stats_file=stats_file, config=config,
    **kwargs)]. *)
Definition backtest (cls : pyval) (name : string) (b : Z) (ds : pyval)
    (start stop : Z) (pandas_data : pyval) (path : string)
    (cfg : pyval) (kw : pyval) : M Q :=
  match cls, kw with
  | PyClass c, PyKwargs k => fun w =>
      let p := match pandas_data with
               | PyPool => Some (pool w)
               | _ => None
               end in
      let call := mkBacktest c name b ds start stop p path cfg k in
      (Ok (backtest_result env (backtest_calls w)),
       mkWorld (pool w) (trader w) (trace w ++ [EvBacktest call])
               (time_calls w) (perf_calls w) (S (backtest_calls w))
               (stats_file w))
  | PyClass _, _ => raise (TypeError "argument after ** must be a mapping")
  | _, _ => raise (AttributeError "object has no attribute 'backtest'")
  end.

(** The body of the loop over the requested names (lines 160-210). *)
Definition dispatch (live_trading : bool) (strategy_name : string) : M unit :=
  match registry !! strategy_name with
  | None =>
      raise (ValueError ("Strategy " +:+ strategy_name +:+ " does not exist"))
  | Some strategy_params =>
      cfg ← lift (resolve strategy_params);
      cname ← dunder_name (strategy_class cfg);
      t ← time;
      let path := stats_file_path cname t in
      assign_stats_file path ;;
      if live_trading then
        strategy ← construct (strategy_class cfg) strategy_name budget
                     alpaca_broker path (kwargs cfg);
        add_strategy strategy
      else
        match backtesting_datasource cfg with
        | PyNone =>
            raise (ValueError ("Backtesting is not supported for strategy "
                               +:+ strategy_name))
        | ds =>
            relabel (pandas_data cfg) strategy_name ;;
            tic ← perf_counter;
            _ ← backtest (strategy_class cfg) strategy_name budget ds
                  backtesting_start backtesting_end (pandas_data cfg)
                  path (config cfg) (kwargs cfg);
            toc ← perf_counter;
            emit (EvPrintElapsed (toc - tic)) ;;
            emit (EvLogInfo ("*** Benchmark Performance for "
                             +:+ benchmark_asset +:+ " ***")) ;;
            emit (EvCalculateReturns benchmark_asset
                    backtesting_start backtesting_end)
        end
  end.

(** [for strategy_name in strategies: ...]. *)
Fixpoint dispatch_all (live_trading : bool) (strategies : list string)
    : M unit :=
  match strategies with
  | [] => mret tt
  | strategy_name :: rest =>
      dispatch live_trading strategy_name ;; dispatch_all live_trading rest
  end.

(** [for counter, values in perf_counters.counters.items(): print(...)]. *)
Fixpoint print_counters (cs : list (string * Q)) : M unit :=
  match cs with
  | [] => mret tt
  | (c, v) :: cs' => emit (EvPrintCounter c v) ;; print_counters cs'
  end.

(** The [__main__] block once the arguments are parsed: [live_trading]
    is read once (line 157), before the loop. *)
Definition main (strategies : list string) (live_trading : bool) : M unit :=
  dispatch_all live_trading strategies ;;
  (if live_trading then run_all else mret tt) ;;
  print_counters (counters env) ;;
  emit (EvLogInfo "The end").

End WithEnv.

(** The whole script: start-up, registry, dispatch. *)
Definition program (fs : filesystem) (env : Env) (strategies : list string)
    (live_trading : bool) : outcome unit * world :=
  match load_pool fs with
  | Raise e => (Raise e, init_world [])
  | Ok p => main env (mapping p) strategies live_trading (init_world p)
  end.

End Dispatcher.

(** ** Vocabulary of the specification *)

Module Vocabulary.
Import DataLoader Registry Dispatcher.

(** The file format of section 6: date, open, high, low, close, an
    ignored column, volume.  [line_fields] reads the six fields that
    matter off a line of that shape. *)
Definition line_fields (l : list cell) : option (Z * list Q) :=
  match l with
  | CDate t :: CNum o :: CNum h :: CNum lo :: CNum c :: _ :: CNum v :: _ =>
      Some (t, [o; h; lo; c; v])
  | _ => None
  end.

Definition line_date (l : list cell) : option Z := fst <$> line_fields l.

(** A well-formed file, after section 6: a header line, then data lines
    of the shape above, in any order. *)
Definition well_formed_file (f : csv_file) : Prop :=
  match f with
  | [] => False
  | _ :: body => Forall (fun l => is_Some (line_fields l)) body
  end.

Definition date_in_window (lo hi : Z) (l : list cell) : bool :=
  match line_date l with
  | Some t => bool_decide (lo <= t /\ t <= hi)
  | None => false
  end.

(** The data lines of a file whose date lies in the closed window. *)
Definition lines_in_window (lo hi : Z) (f : csv_file) : list (list cell) :=
  filter (fun l => date_in_window lo hi l) (tl f).

(** The dates of those lines, in file order. *)
Definition dates_in_window (lo hi : Z) (f : csv_file) : list Z :=
  omap line_date (lines_in_window lo hi f).

Definition strictly_before : relation (Z * list Q) :=
  fun r1 r2 => r1.1 < r2.1.

(** The state after a successful live dispatch of a class [c] under
    [name] with keyword arguments [k] (lines 172-181). *)
Definition after_live (env : Env) (c : StrategyClass) (name : string)
    (k : gmap string (list Asset)) (w : world) : world :=
  let inst := mkInstance c name budget alpaca_broker
                (stats_file_path (class_name c) (time_at env (time_calls w)))
                k in
  mkWorld (pool w) (trader w ++ [inst])
          (trace w ++ [EvConstruct inst; EvAddStrategy inst])
          (S (time_calls w)) (perf_calls w) (backtest_calls w)
          (Some (stats_file_path (class_name c)
                   (time_at env (time_calls w)))).

(** The call made by a backtest dispatch (lines 193-203). *)
Definition backtest_call (env : Env) (c : StrategyClass) (name : string)
    (ds : pyval) (k : gmap string (list Asset)) (cf : pyval) (w : world)
    : BacktestCall :=
  mkBacktest c name budget ds backtesting_start backtesting_end
    (Some (relabel_pool name (pool w)))
    (stats_file_path (class_name c) (time_at env (time_calls w))) cf k.

(** The elapsed time printed by a backtest dispatch (lines 192-205). *)
Definition elapsed (env : Env) (w : world) : Q :=
  (perf_counter_at env (S (perf_calls w))
   - perf_counter_at env (perf_calls w))%Q.

(** The state after a successful backtest dispatch (lines 172-210). *)
Definition after_backtest (env : Env) (c : StrategyClass) (name : string)
    (ds : pyval) (k : gmap string (list Asset)) (cf : pyval) (w : world)
    : world :=
  mkWorld (relabel_pool name (pool w)) (trader w)
          (trace w ++ [EvBacktest (backtest_call env c name ds k cf w);
                       EvPrintElapsed (elapsed env w);
                       EvLogInfo "*** Benchmark Performance for SPY ***";
                       EvCalculateReturns "SPY" backtesting_start
                                          backtesting_end])
          (S (time_calls w)) (S (S (perf_calls w))) (S (backtest_calls w))
          (Some (stats_file_path (class_name c)
                   (time_at env (time_calls w)))).

(** The state when a dispatch fails after line 172: the wall clock has
    been read and [stats_file] assigned, nothing else. *)
Definition after_line_172 (env : Env) (c : StrategyClass) (w : world)
    : world :=
  mkWorld (pool w) (trader w) (trace w)
          (S (time_calls w)) (perf_calls w) (backtest_calls w)
          (Some (stats_file_path (class_name c)
                   (time_at env (time_calls w)))).

(** What lines 164-170 would do with a plain subscript in place of the
    key-presence check of lines 166-168; not part of the script, kept for
    comparison with [resolve]. *)
Definition resolve_unguarded (strategy_params : gmap string pyval)
    : outcome StrategyParams :=
  obind (getitem strategy_params "class") (fun strategy_class =>
  obind (getitem strategy_params "backtesting_datasource")
    (fun backtesting_datasource =>
  obind (getitem strategy_params "pandas_data") (fun pandas_data =>
  obind (getitem strategy_params "kwargs") (fun kwargs =>
  obind (getitem strategy_params "config") (fun config =>
  Ok (mkParams strategy_class backtesting_datasource pandas_data
               kwargs config)))))).

(** Events that only the live path produces, and events that only the
    backtest path produces. *)
Definition live_event (ev : event) : bool :=
  match ev with
  | EvConstruct _ | EvAddStrategy _ | EvRunAll _ => true
  | _ => false
  end.

Definition backtest_event (ev : event) : bool :=
  match ev with
  | EvBacktest _ | EvPrintElapsed _ | EvCalculateReturns _ _ _ => true
  | _ => false
  end.

(** The events the dispatch loop can produce, by mode. *)
Definition loop_event (live_trading : bool) (ev : event) : bool :=
  match ev with
  | EvConstruct _ | EvAddStrategy _ => live_trading
  | EvBacktest _ | EvPrintElapsed _ | EvCalculateReturns _ _ _
  | EvLogInfo _ => negb live_trading
  | EvRunAll _ | EvPrintCounter _ _ => false
  end.

(** What [main] does after the loop and the optional [run_all]: it
    prints the counters and logs the end. *)
Definition shutdown (env : Env) : list event :=
  ((fun cv : string * Q => EvPrintCounter cv.1 cv.2) <$> counters env)
  ++ [EvLogInfo "The end"].

(** What the live loop appends for the instances it builds. *)
Definition registration (insts : list StrategyInstance) : list event :=
  flat_map (fun i => [EvConstruct i; EvAddStrategy i]) insts.

Definition is_construct (ev : event) : bool :=
  match ev with EvConstruct _ => true | _ => false end.
Definition is_add_strategy (ev : event) : bool :=
  match ev with EvAddStrategy _ => true | _ => false end.
Definition is_run_all (ev : event) : bool :=
  match ev with EvRunAll _ => true | _ => false end.
Definition is_backtest (ev : event) : bool :=
  match ev with EvBacktest _ => true | _ => false end.

Definition count_events (f : event -> bool) (tr : list event) : nat :=
  length (List.filter f tr).

(** The stats-file paths handed to the collaborators, in order. *)
Definition stats_file_of (ev : event) : option string :=
  match ev with
  | EvConstruct inst => Some (inst_stats_file inst)
  | EvBacktest call => Some (bt_stats_file call)
  | _ => None
  end.

Definition stats_files (tr : list event) : list string :=
  omap stats_file_of tr.

(** The benchmark computations requested, in order. *)
Definition benchmarks (tr : list event) : list (string * Z * Z) :=
  omap (fun ev => match ev with
                  | EvCalculateReturns sym start stop =>
                      Some (sym, start, stop)
                  | _ => None
                  end) tr.

(** The batch aborted before any run executed: an unknown-strategy
    error, no stats-file path generated or handed out, the backtest entry
    point not invoked, no instance registered. *)
Definition aborted_before_any_run (r : outcome unit * world) : Prop :=
  (exists n,
     r.1 = Raise (ValueError ("Strategy " +:+ n +:+ " does not exist"))) /\
  stats_file r.2 = None /\
  stats_files (trace r.2) = [] /\
  count_events is_backtest (trace r.2) = 0%nat /\
  trader r.2 = [].

(** Two clock readings in the same whole second: equal once truncated
    the way line 172 truncates them, or, for readings at or after the
    epoch, equal once rounded down. *)
Definition same_second (t t' : Q) : Prop :=
  py_int t = py_int t' \/
  ((0 <= t)%Q /\ (0 <= t')%Q /\ Qfloor t = Qfloor t').

(** A registered name whose entry has a data source and binds the
    pool. *)
Definition pool_bound (p : Pool) (name : string) : Prop :=
  exists params c d k cf,
    mapping p !! name = Some params /\
    resolve params
    = Ok (mkParams (PyClass c) (PySource d) PyPool (PyKwargs k) cf).

End Vocabulary.

(** ** Sample inputs *)

Module Samples.
Import DataLoader Registry Dispatcher Vocabulary.

(** A file with a header and three data lines, given out of order. *)
Definition sample_header : list cell :=
  [CText "Date"; CText "Open"; CText "High"; CText "Low"; CText "Close";
   CText "Adj Close"; CText "Volume"].

Definition sample_line (y m d : Z) (o : Z) : list cell :=
  [CDate (datetime y m d); CNum (inject_Z o); CNum (inject_Z (o + 2));
   CNum (inject_Z (o - 1)); CNum (inject_Z (o + 1)); CNum (inject_Z o);
   CNum (inject_Z 1000)].

Definition sample_file : csv_file :=
  [sample_header; sample_line 2019 3 5 270; sample_line 2019 1 2 250;
   sample_line 2019 2 1 260].

Definition sample_fs : filesystem := fun _ => Some sample_file.

(** A file of the same shape in which two data lines carry the date
    2019-06-03. *)
Definition repeated_date_file : csv_file :=
  [sample_header; sample_line 2019 6 3 270; sample_line 2019 3 5 260;
   sample_line 2019 6 3 280].

Definition repeated_date_fs : filesystem := fun _ => Some repeated_date_file.

(** The pool loaded from the sample file system, and an environment
    whose wall clock advances by half a second per reading. *)
Definition sample_pool : Pool :=
  match load_pool sample_fs with
  | Ok p => p
  | Raise _ => []
  end.

Definition sample_env : Env :=
  mkEnv (fun k => inject_Z 1572775200 + inject_Z (Z.of_nat k) / 2)%Q
        (fun k => inject_Z (Z.of_nat k) / 4)%Q
        (fun k => inject_Z (Z.of_nat k))
        [("backtest", 3 # 2)].

End Samples.



(** ** Further vocabulary: the loader loop, the frame of a run, its
    shutdown *)

Module Coverage.
Import DataLoader Registry Dispatcher Vocabulary Samples.

(** [Asset(symbol=ticker, asset_type="stock")] (lines 43-46). *)
Definition ticker_asset (ticker : string) : Asset := mkAsset ticker "stock".

(** A dataset without its owning-strategy label, and a pool without its
    labels. *)
Definition unlabelled_data (d : Data) : Asset * DataFrame * Z * Z * string :=
  (asset d, df d, date_start d, date_end d, timestep d).

Definition unlabelled (p : Pool)
    : list (Asset * (Asset * DataFrame * Z * Z * string)) :=
  (fun kv : Asset * Data => (kv.1, unlabelled_data kv.2)) <$> p.

(** The calls of the backtest entry point, in order. *)
Definition backtests (tr : list event) : list BacktestCall :=
  omap (fun ev => match ev with
                  | EvBacktest call => Some call
                  | _ => None
                  end) tr.


(** The events of lines 215-218: a counter print, or the closing log. *)
Definition is_shutdown (ev : event) : bool :=
  match ev with
  | EvPrintCounter _ _ => true
  | EvLogInfo msg => bool_decide (msg = "The end")
  | _ => false
  end.

(** What one dispatch leaves alone, and what it may append. *)
Definition untouched (live : bool) (w w' : world) : Prop :=
  unlabelled (pool w') = unlabelled (pool w) /\
  (exists insts, trader w' = trader w ++ insts) /\
  (exists evs, trace w' = trace w ++ evs /\
               Forall (fun ev => is_shutdown ev = false /\
                                 is_run_all ev = false) evs) /\
  if live
  then pool w' = pool w /\ perf_calls w' = perf_calls w /\
       backtest_calls w' = backtest_calls w
  else trader w' = trader w.

(** The names whose entry has a data source and binds the pool. *)
Definition pool_bound_names_list : list string :=
  ["momentum_pandas"; "diversification"; "buy_and_hold"; "simple"].

(** The pool after the label rewrites of a list of backtest dispatches. *)
Definition relabelled (names : list string) (p : Pool) : Pool :=
  match last names with
  | Some n => relabel_pool n p
  | None => p
  end.

(** The keyword arguments the registry holds for a name, given the keys
    of the pool (lines 85, 92, ...). *)
Definition kwargs_for (p : Pool) (name : string)
    : gmap string (list Asset) :=
  if decide (name = "momentum_pandas") then {[ "symbols" := keys p ]}
  else ∅.

End Coverage.
(** * Properties *)

Section Loader_facts.
Import DataLoader Vocabulary.

Lemma parse_row_fields l r :
  line_fields l = Some r -> parse_row l = Some r.
Proof.
  unfold line_fields. intros H.
  repeat match type of H with
         | match ?x with _ => _ end = _ => destruct x; try discriminate
         end.
  by inversion H.
Qed.

Lemma line_fields_length l r :
  line_fields l = Some r -> length r.2 = 5%nat.
Proof.
  unfold line_fields. intros H.
  repeat match type of H with
         | match ?x with _ => _ end = _ => destruct x; try discriminate
         end.
  by inversion H.
Qed.

Lemma read_lines body :
  Forall (fun l => is_Some (line_fields l)) body ->
  exists rs, mapM parse_row body = Some rs /\
             Forall2 (fun l r => line_fields l = Some r) body rs.
Proof.
  induction 1 as [|l body [r Hr] _ [rs [IH1 IH2]]].
  - exists []. by split; [|constructor].
  - exists (r :: rs). split; [|by constructor].
    apply mapM_Some. constructor; [by apply parse_row_fields|].
    by apply mapM_Some.
Qed.

Lemma select_canonical_rows (rs : list (Z * list Q)) :
  Forall (fun r => length r.2 = 5%nat) rs ->
  mapM (fun r : Z * list Q =>
          vs ← mapM (fun i => r.2 !! i) [0; 1; 2; 3; 4]%nat; Some (r.1, vs))
       rs = Some rs.
Proof.
  intros H. apply mapM_Some. induction H as [|[t vs] rs Hlen _ IH].
  - constructor.
  - constructor; [|done]. simpl in *.
    do 5 (destruct vs as [|? vs]; try discriminate).
    by destruct vs.
Qed.

Lemma StronglySorted_filter_keep {A} (R : relation A) (P : A -> Prop)
    `{forall x, Decision (P x)} (l : list A) :
  StronglySorted R l -> StronglySorted R (filter P l).
Proof.
  induction 1 as [|x l Hs IH Hx].
  - constructor.
  - rewrite filter_cons. destruct (decide (P x)); [|done].
    constructor; [done|].
    apply Forall_forall. intros y Hy.
    apply list_elem_of_filter in Hy as [_ Hy].
    rewrite Forall_forall in Hx. by apply Hx.
Qed.

Lemma StronglySorted_strict (l : list (Z * list Q)) :
  StronglySorted by_date l -> NoDup (l.*1) ->
  StronglySorted strictly_before l.
Proof.
  induction 1 as [|x l Hs IH Hx]; intros Hnd.
  - constructor.
  - rewrite fmap_cons in Hnd. apply NoDup_cons in Hnd as [Hnotin Hnd].
    constructor; [by apply IH|].
    rewrite Forall_forall in *. intros y Hy.
    specialize (Hx y Hy). unfold by_date, strictly_before in *.
    assert (x.1 <> y.1); [|lia].
    intros Heq. apply Hnotin. rewrite Heq.
    apply list_elem_of_fmap. by exists y.
Qed.

Global Instance by_date_trans : Transitive by_date.
Proof. intros x y z. unfold by_date. lia. Qed.

Global Instance by_date_total : Total by_date.
Proof. intros x y. unfold by_date. lia. Qed.

Lemma window_count lo hi body rs :
  Forall2 (fun l r => line_fields l = Some r) body rs ->
  length (filter (in_window lo hi) rs) =
  length (filter (fun l => date_in_window lo hi l) body).
Proof.
  induction 1 as [|l r body rs Hl _ IH]; [done|].
  assert (Hw : date_in_window lo hi l = bool_decide (in_window lo hi r)).
  { unfold date_in_window, line_date. by rewrite Hl. }
  rewrite !filter_cons.
  destruct (decide (in_window lo hi r)) as [Hin|Hout].
  - rewrite decide_True; [simpl; by rewrite IH|].
    rewrite Hw. by apply bool_decide_pack.
  - rewrite decide_False; [done|].
    rewrite Hw. intros Hb. by apply bool_decide_unpack in Hb.
Qed.

Lemma Forall2_origin {A B} (P : A -> B -> Prop) l k y :
  Forall2 P l k -> y ∈ k -> exists x, x ∈ l /\ P x y.
Proof.
  induction 1 as [|x y' l k Hxy _ IH]; intros Hy.
  - by apply elem_of_nil in Hy.
  - apply elem_of_cons in Hy as [->|Hy].
    + exists x. split; [left|done].
    + destruct (IH Hy) as (x' & Hx' & HP). exists x'. split; [by right|done].
Qed.

Lemma renamed_columns :
  (fun c => default c (rename_map !! c)) <$> tl names = canonical.
Proof. by vm_compute. Qed.

Lemma canonical_positions :
  mapM (fun c => col_index c canonical) canonical
  = Some [0; 1; 2; 3; 4]%nat.
Proof. by vm_compute. Qed.

Lemma select_after_rename i rs :
  Forall (fun r : Z * list Q => length r.2 = 5%nat) rs ->
  select canonical (rename rename_map (mkDF i (tl names) rs))
  = Ok (mkDF i canonical rs).
Proof.
  intros Hlen. unfold select, rename.
  cbn [columns rows index_name].
  rewrite renamed_columns, canonical_positions.
  by rewrite select_canonical_rows.
Qed.

Lemma fields_of_lines body rs :
  Forall2 (fun l r => line_fields l = Some r) body rs ->
  omap line_fields body = rs.
Proof.
  induction 1 as [|l r body rs Hl _ IH]; [done|].
  cbn [omap list_omap]. by rewrite Hl, IH.
Qed.

(** What the loop body builds from a file whose data lines all have the
    expected shape. *)
Lemma load_ticker_lines (fs : filesystem) ticker hdr body :
  fs ("data/" +:+ ticker +:+ ".csv") = Some (hdr :: body) ->
  Forall (fun l => is_Some (line_fields l)) body ->
  load_ticker fs ticker
  = Ok (mkAsset ticker "stock",
        Data_init "my_strategy" (mkAsset ticker "stock")
          (mkDF "datetime" canonical (omap line_fields body))
          load_date_start load_date_end "day").
Proof.
  intros Hfs Hlines.
  destruct (read_lines body Hlines) as (rs & Hparse & Hrel).
  assert (Hlen : Forall (fun r : Z * list Q => length r.2 = 5%nat) rs).
  { apply Forall_forall. intros r Hr.
    destruct (Forall2_origin _ _ _ _ Hrel Hr) as (l & _ & Hl).
    by eapply line_fields_length. }
  unfold load_ticker, read_csv. rewrite Hfs, Hparse.
  cbn [obind hd]. rewrite (select_after_rename _ _ Hlen). cbn [obind].
  by rewrite (fields_of_lines _ _ Hrel).
Qed.

Lemma dates_of_fields body :
  omap line_date body = (omap line_fields body).*1.
Proof.
  induction body as [|l body IH]; [done|].
  cbn [omap list_omap]. unfold line_date at 1.
  destruct (line_fields l); cbn [fmap option_fmap option_map];
    [rewrite fmap_cons|]; by rewrite IH.
Qed.

Lemma window_dates lo hi body rs :
  Forall2 (fun l r => line_fields l = Some r) body rs ->
  (filter (in_window lo hi) rs).*1
  = omap line_date (filter (fun l => date_in_window lo hi l) body).
Proof.
  induction 1 as [|l r body rs Hl _ IH]; [done|].
  assert (Hd : line_date l = Some r.1).
  { unfold line_date. by rewrite Hl. }
  assert (Hw : date_in_window lo hi l = bool_decide (in_window lo hi r)).
  { unfold date_in_window. by rewrite Hd. }
  rewrite !filter_cons.
  destruct (decide (in_window lo hi r)) as [Hin|Hout].
  - rewrite decide_True by (rewrite Hw; by apply bool_decide_pack).
    rewrite fmap_cons, IH. cbn [omap list_omap]. by rewrite Hd.
  - rewrite decide_False; [done|].
    rewrite Hw. intros Hb. by apply bool_decide_unpack in Hb.
Qed.

Lemma shaped_lines body :
  Forall (fun l => is_Some (line_fields l)) body ->
  Forall2 (fun l r => line_fields l = Some r) body (omap line_fields body).
Proof.
  intros Hlines. destruct (read_lines body Hlines) as (rs & _ & Hrel).
  by rewrite (fields_of_lines _ _ Hrel).
Qed.

(** The dates of the loaded records are, up to order, the dates of the
    data lines inside the window. *)
Lemma normalized_dates lo hi body :
  Forall (fun l => is_Some (line_fields l)) body ->
  (filter (in_window lo hi)
     (merge_sort by_date (omap line_fields body))).*1
  ≡ₚ omap line_date (filter (fun l => date_in_window lo hi l) body).
Proof.
  intros Hlines.
  rewrite <- (window_dates lo hi body _ (shaped_lines body Hlines)).
  by rewrite merge_sort_Permutation.
Qed.

Lemma normalized_rows_ascending lo hi (rs : list (Z * list Q)) :
  StronglySorted by_date (filter (in_window lo hi) (merge_sort by_date rs)).
Proof.
  apply StronglySorted_filter_keep, StronglySorted_merge_sort; apply _.
Qed.

(** Strictly ascending dates are pairwise distinct. *)
Lemma strictly_ascending_distinct (l : list (Z * list Q)) :
  StronglySorted strictly_before l -> NoDup (l.*1).
Proof.
  induction 1 as [|x l _ IH Hx]; [constructor|].
  rewrite fmap_cons. apply NoDup_cons. split; [|done].
  intros Hin. apply list_elem_of_fmap in Hin as (y & Hy1 & Hy).
  rewrite Forall_forall in Hx. specialize (Hx y Hy).
  unfold strictly_before in Hx. lia.
Qed.

Lemma normalized_rows_strict lo hi body :
  Forall (fun l => is_Some (line_fields l)) body ->
  StronglySorted strictly_before
    (filter (in_window lo hi) (merge_sort by_date (omap line_fields body)))
  <-> NoDup (omap line_date (filter (fun l => date_in_window lo hi l) body)).
Proof.
  intros Hlines. rewrite <- (normalized_dates lo hi body Hlines). split.
  - apply strictly_ascending_distinct.
  - apply StronglySorted_strict, normalized_rows_ascending.
Qed.

Lemma ascending_dates (l : list (Z * list Q)) :
  StronglySorted by_date l -> StronglySorted Z.le (l.*1).
Proof.
  induction 1 as [|x l _ IH Hx]; [constructor|].
  rewrite fmap_cons. constructor; [done|]. by apply Forall_fmap.
Qed.

(** C7 (as amended).  For every well-formed source file, the dataset
    built for a ticker has exactly the five canonical columns open, high,
    low, close, volume, every record carrying the five values of the line
    it comes from (the file's sixth column is dropped); it has as many
    records as the file has data lines dated within the closed window
    from [date_start] to [date_end]; and its records are ascending by
    date: strictly so exactly when no two lines inside the window carry
    the same date.  A file holding the same data lines in another order
    loads to the same records in the same order of dates, and to the very
    same dataset when no two lines inside the window carry the same
    date. *)
Theorem loaded_dataset_normalized (fs : filesystem) ticker f :
  fs ("data/" +:+ ticker +:+ ".csv") = Some f ->
  well_formed_file f ->
  exists d,
    load_ticker fs ticker = Ok (mkAsset ticker "stock", d) /\
    columns (df d) = ["open"; "high"; "low"; "close"; "volume"] /\
    Forall (fun r => length r.2 = 5%nat /\
                     exists l, l ∈ tl f /\ line_fields l = Some r)
           (rows (df d)) /\
    length (rows (df d))
    = length (lines_in_window (date_start d) (date_end d) f) /\
    date_start d = datetime 2019 1 6 /\
    date_end d = datetime 2019 12 15 /\
    StronglySorted by_date (rows (df d)) /\
    (StronglySorted strictly_before (rows (df d)) <->
     NoDup (dates_in_window (date_start d) (date_end d) f)) /\
    forall (fs' : filesystem) f',
      fs' ("data/" +:+ ticker +:+ ".csv") = Some f' ->
      f' <> [] ->
      tl f' ≡ₚ tl f ->
      exists d',
        load_ticker fs' ticker = Ok (mkAsset ticker "stock", d') /\
        (rows (df d')).*1 = (rows (df d)).*1 /\
        rows (df d') ≡ₚ rows (df d) /\
        (NoDup (dates_in_window (date_start d) (date_end d) f) -> d' = d).
Proof.
  intros Hfs Hlines. destruct f as [|hdr body]; [done|].
  cbn [well_formed_file] in Hlines.
  pose proof (shaped_lines body Hlines) as Hrel.
  eexists. split; [by apply (load_ticker_lines fs ticker hdr body)|].
  cbn [df columns rows Data_init date_start date_end].
  unfold dates_in_window, lines_in_window. cbn [tl].
  split; [done|].
  split; [|split; [|split; [done|split; [done|split; [|split]]]]].
  - apply Forall_forall. intros r Hr.
    apply list_elem_of_filter in Hr as [_ Hr].
    rewrite merge_sort_Permutation in Hr.
    destruct (Forall2_origin _ _ _ _ Hrel Hr) as (l & Hl & Hf).
    split; [by eapply line_fields_length|]. by exists l.
  - rewrite <- (window_count _ _ _ _ Hrel).
    apply Permutation_length. by rewrite merge_sort_Permutation.
  - apply normalized_rows_ascending.
  - by apply normalized_rows_strict.
  - intros fs' [|hdr' body'] Hfs' Hne Hbody; [done|]. cbn [tl] in Hbody.
    assert (Hlines' : Forall (fun l => is_Some (line_fields l)) body')
      by (by rewrite Hbody).
    eexists. split; [by apply (load_ticker_lines fs' ticker hdr' body')|].
    cbn [df rows Data_init].
    assert (Hperm :
      filter (in_window load_date_start load_date_end)
        (merge_sort by_date (omap line_fields body'))
      ≡ₚ filter (in_window load_date_start load_date_end)
           (merge_sort by_date (omap line_fields body)))
      by (by rewrite !merge_sort_Permutation, Hbody).
    split; [|split; [done|]].
    + apply (StronglySorted_unique_strong Z.le).
      * intros x1 x2 _ _. lia.
      * apply ascending_dates, normalized_rows_ascending.
      * apply ascending_dates, normalized_rows_ascending.
      * by rewrite Hperm.
    + intros Hnodup. unfold Data_init. cbn [index_name columns rows].
      do 2 f_equal.
      apply (StronglySorted_unique_strong strictly_before).
      * intros x1 x2 _ _. unfold strictly_before. lia.
      * apply normalized_rows_strict; [done|]. by rewrite Hbody.
      * by apply normalized_rows_strict.
      * done.
Qed.

End Loader_facts.

Section Dispatch_facts.
Import DataLoader Registry Dispatcher Vocabulary.
Variable env : Env.
Variable registry : gmap string (gmap string pyval).

Ltac run_M :=
  repeat (unfold mbind, M_bind, mret, M_ret, lift, raise, emit, time,
            perf_counter, construct, add_strategy, relabel, backtest,
            dunder_name, assign_stats_file; cbn).

Lemma dispatch_unknown live name w :
  registry !! name = None ->
  dispatch env registry live name w
  = (Raise (ValueError ("Strategy " +:+ name +:+ " does not exist")), w).
Proof. intros H. unfold dispatch. by rewrite H. Qed.

Lemma dispatch_live name params ds pd c k cf w :
  registry !! name = Some params ->
  resolve params = Ok (mkParams (PyClass c) ds pd (PyKwargs k) cf) ->
  dispatch env registry true name w = (Ok tt, after_live env c name k w).
Proof.
  intros Hreg Hres. unfold dispatch. rewrite Hreg.
  unfold mbind at 1, M_bind at 1, lift. rewrite Hres.
  run_M. unfold after_live. by rewrite <- app_assoc.
Qed.

Lemma dispatch_unsupported name params pd c kw cf w :
  registry !! name = Some params ->
  resolve params = Ok (mkParams (PyClass c) PyNone pd kw cf) ->
  dispatch env registry false name w
  = (Raise (ValueError ("Backtesting is not supported for strategy "
                        +:+ name)),
     after_line_172 env c w).
Proof.
  intros Hreg Hres. unfold dispatch. rewrite Hreg.
  unfold mbind at 1, M_bind at 1, lift. rewrite Hres.
  by run_M.
Qed.

Lemma dispatch_no_pool name params d c kw cf w :
  registry !! name = Some params ->
  resolve params = Ok (mkParams (PyClass c) (PySource d) PyNone kw cf) ->
  dispatch env registry false name w
  = (Raise (AttributeError "'NoneType' object has no attribute 'values'"),
     after_line_172 env c w).
Proof.
  intros Hreg Hres. unfold dispatch. rewrite Hreg.
  unfold mbind at 1, M_bind at 1, lift. rewrite Hres.
  by run_M.
Qed.

Lemma dispatch_backtest name params d c k cf w :
  registry !! name = Some params ->
  resolve params
  = Ok (mkParams (PyClass c) (PySource d) PyPool (PyKwargs k) cf) ->
  dispatch env registry false name w
  = (Ok tt, after_backtest env c name (PySource d) k cf w).
Proof.
  intros Hreg Hres. unfold dispatch. rewrite Hreg.
  unfold mbind at 1, M_bind at 1, lift. rewrite Hres.
  run_M. unfold after_backtest, backtest_call, elapsed.
  by rewrite <- !app_assoc.
Qed.

(** Whatever the registry holds, one dispatch only appends to the trace,
    and what it appends belongs to the mode it was called in. *)
Lemma dispatch_events live name w :
  exists evs,
    trace (dispatch env registry live name w).2 = trace w ++ evs /\
    Forall (fun ev => loop_event live ev = true) evs.
Proof.
  unfold dispatch.
  destruct (registry !! name) as [params|];
    [|exists []; split; [by rewrite app_nil_r|constructor]].
  unfold mbind at 1, M_bind at 1, lift.
  destruct (resolve params) as [[sc ds pd kw cf]|e];
    [|exists []; split; [by rewrite app_nil_r|constructor]].
  assert (Hnil : exists evs,
            trace w = trace w ++ evs /\
            Forall (fun ev => loop_event live ev = true) evs).
  { exists []. split; [by rewrite app_nil_r|constructor]. }
  destruct sc as [| |c| | |]; try exact Hnil.
  destruct live.
  - destruct kw; run_M; try exact Hnil.
    eexists. split; [rewrite <- !app_assoc; reflexivity|by repeat constructor].
  - destruct ds; run_M; try exact Hnil;
      (destruct pd; run_M; try exact Hnil;
       (destruct kw; run_M; try exact Hnil));
      (eexists; split;
       [rewrite <- !app_assoc; reflexivity|by repeat constructor]).
Qed.

Lemma dispatch_all_events live names : forall w,
  exists evs,
    trace (dispatch_all env registry live names w).2 = trace w ++ evs /\
    Forall (fun ev => loop_event live ev = true) evs.
Proof.
  induction names as [|n names IH]; intros w.
  - exists []. split; [by rewrite app_nil_r|constructor].
  - cbn [dispatch_all]. unfold mbind, M_bind.
    destruct (dispatch_events live n w) as (evs1 & Htr1 & Hev1).
    destruct (dispatch env registry live n w) as [[[]|e] w1]; cbn in *.
    + destruct (IH w1) as (evs2 & Htr2 & Hev2).
      exists (evs1 ++ evs2). split.
      * by rewrite Htr2, Htr1, app_assoc.
      * by apply Forall_app.
    + by exists evs1.
Qed.

(** A name missing from the registry stops the loop where it stands:
    the names before it are dispatched as if requested alone, and nothing
    is done for it or for the names after it. *)
Lemma dispatch_all_unknown live pre bad post : forall w,
  registry !! bad = None ->
  dispatch_all env registry live (pre ++ bad :: post) w
  = match dispatch_all env registry live pre w with
    | (Ok _, w') =>
        (Raise (ValueError ("Strategy " +:+ bad +:+ " does not exist")), w')
    | (Raise e, w') => (Raise e, w')
    end.
Proof.
  intros w Hbad. revert w. induction pre as [|n pre IH]; intros w.
  - cbn [app dispatch_all]. unfold mbind, M_bind, mret, M_ret.
    by rewrite dispatch_unknown.
  - cbn [app dispatch_all]. unfold mbind, M_bind.
    destruct (dispatch env registry live n w) as [[[]|e] w1]; [|done].
    apply IH.
Qed.

Lemma print_counters_run cs : forall w,
  print_counters cs w
  = (Ok tt,
     mkWorld (pool w) (trader w)
       (trace w ++ ((fun cv : string * Q => EvPrintCounter cv.1 cv.2) <$> cs))
       (time_calls w) (perf_calls w) (backtest_calls w) (stats_file w)).
Proof.
  induction cs as [|[c v] cs IH]; intros w.
  - cbn. unfold mret, M_ret. rewrite app_nil_r. by destruct w.
  - cbn [print_counters]. unfold mbind, M_bind, emit. rewrite IH.
    cbn. by rewrite <- app_assoc.
Qed.

(** [main] in closed form: the loop, then [run_all] when live, then the
    shutdown messages; an exception in the loop ends the run there. *)
Lemma main_run names live w :
  main env registry names live w
  = match dispatch_all env registry live names w with
    | (Ok _, w1) =>
        (Ok tt,
         mkWorld (pool w1) (trader w1)
           (trace w1 ++ (if live then [EvRunAll (trader w1)] else [])
                     ++ shutdown env)
           (time_calls w1) (perf_calls w1) (backtest_calls w1)
           (stats_file w1))
    | (Raise e, w1) => (Raise e, w1)
    end.
Proof.
  unfold main. unfold mbind at 1, M_bind at 1.
  destruct (dispatch_all env registry live names w) as [[[]|e] w1]; [|done].
  unfold shutdown.
  destruct live; unfold mbind, M_bind, run_all, emit, mret, M_ret;
    rewrite print_counters_run; cbn; by rewrite <- ?app_assoc.
Qed.

(** C3.  The live flag is an argument of the whole run and reaches every
    dispatch unchanged, so a run is homogeneous: with the flag set the run
    produces no backtest event (backtest call, elapsed-time print,
    benchmark computation), and with the flag off it produces no live
    event (construction, registration, run-all).  No run mixes the two
    paths. *)
Theorem run_is_homogeneous names live w :
  exists evs,
    trace (main env registry names live w).2 = trace w ++ evs /\
    (if live
     then Forall (fun ev => backtest_event ev = false) evs
     else Forall (fun ev => live_event ev = false) evs) /\
    ~ (Exists (fun ev => live_event ev = true) evs /\
       Exists (fun ev => backtest_event ev = true) evs).
Proof.
  assert (Hloop : forall ev, loop_event live ev = true ->
            if live then backtest_event ev = false
            else live_event ev = false).
  { intros [] H; destruct live; try done. }
  assert (Htail : Forall (fun ev => backtest_event ev = false /\
                                    live_event ev = false) (shutdown env)).
  { unfold shutdown. apply Forall_app. split; [|by repeat constructor].
    apply Forall_fmap, Forall_true. by intros []. }
  assert (Hmain : exists evs,
            trace (main env registry names live w).2 = trace w ++ evs /\
            if live then Forall (fun ev => backtest_event ev = false) evs
            else Forall (fun ev => live_event ev = false) evs).
  { rewrite main_run.
    destruct (dispatch_all_events live names w) as (evs & Htr & Hev).
    destruct (dispatch_all env registry live names w) as [[[]|e] w1];
      cbn in Htr |- *.
    - eexists. split; [rewrite Htr, <- app_assoc; reflexivity|].
      destruct live.
      + apply Forall_app. split.
        * eapply Forall_impl; [exact Hev|]. intros ev H. by apply Hloop.
        * apply Forall_cons. split; [done|].
          eapply Forall_impl; [exact Htail|]. by intros ev [].
      + apply Forall_app. split.
        * eapply Forall_impl; [exact Hev|]. intros ev H. by apply Hloop.
        * eapply Forall_impl; [exact Htail|]. by intros ev [].
    - exists evs. split; [done|].
      destruct live; (eapply Forall_impl; [exact Hev|]; intros ev H;
                      by apply (Hloop ev)). }
  destruct Hmain as (evs & Htr & Hev). exists evs.
  split; [done|]. split; [done|].
  intros [Hl Hb]. apply Exists_exists in Hl as (e1 & He1 & Hl1).
  apply Exists_exists in Hb as (e2 & He2 & Hb2).
  destruct live; rewrite Forall_forall in Hev.
  - specialize (Hev e2 He2). congruence.
  - specialize (Hev e1 He1). congruence.
Qed.

End Dispatch_facts.

Section Registry_facts.
Import DataLoader Registry Dispatcher Vocabulary.
Variable p : Pool.

(** Every entry of the registry resolves, to a class with keyword
    arguments; its data source is a source or [None], its dataset
    binding is the pool or [None]. *)
Lemma mapping_entries name params :
  mapping p !! name = Some params ->
  exists c ds pd k,
    resolve params = Ok (mkParams (PyClass c) ds pd (PyKwargs k) PyNone) /\
    ((exists d, ds = PySource d) \/ ds = PyNone) /\
    (pd = PyPool \/ pd = PyNone) /\
    (ds = PyNone -> pd = PyNone) /\
    (params !! "pandas_data" = None -> pd = PyNone).
Proof.
  intros H. unfold mapping, mapping_items in H.
  apply elem_of_list_to_map_2 in H.
  repeat (apply elem_of_cons in H as [H|H];
          [inversion H; subst; clear H;
           do 4 eexists; split; [by vm_compute|];
           split; [first [by right | left; by eexists]|];
           split; [first [by left | by right]|];
           split; [first [done | discriminate]|];
           first [done | by vm_compute]
          |]).
  by apply elem_of_nil in H.
Qed.

Lemma mapping_names name :
  is_Some (mapping p !! name) <-> name ∈ registered.
Proof.
  rewrite <- not_eq_None_Some. unfold mapping. split; intros H.
  - destruct (decide (name ∈ registered)) as [|Hn]; [done|].
    exfalso. apply H. by apply not_elem_of_list_to_map.
  - intros Hn. apply not_elem_of_list_to_map in Hn. by apply Hn.
Qed.

Lemma mapping_lookup name e :
  (name, e) ∈ mapping_items p -> mapping p !! name = Some e.
Proof.
  intros H. unfold mapping. apply elem_of_list_to_map_1; [|done].
  apply (bool_decide_unpack _). vm_compute. exact I.
Qed.

(** The pool-bound names are the four entries that bind [pandas_data]
    to the pool. *)
Lemma pool_bound_names name :
  pool_bound p name <->
  name ∈ ["momentum_pandas"; "diversification"; "buy_and_hold"; "simple"].
Proof.
  split.
  - intros (params & c & d & k & cf & Hreg & Hres).
    unfold mapping, mapping_items in Hreg.
    apply elem_of_list_to_map_2 in Hreg.
    repeat (apply elem_of_cons in Hreg as [Hreg|Hreg];
            [inversion Hreg; subst; clear Hreg;
             first [by vm_compute in Hres
                   | repeat first [apply list_elem_of_here
                                  | apply list_elem_of_further]]
            |]).
    by apply elem_of_nil in Hreg.
  - intros H.
    repeat (apply elem_of_cons in H as [->|H];
            [eexists _, _, _, _, _; split;
             [apply mapping_lookup;
              repeat first [apply list_elem_of_here
                           | apply list_elem_of_further]
             |by vm_compute]
            |]).
    by apply elem_of_nil in H.
Qed.

End Registry_facts.

Section Dispatch_claims.
Import DataLoader Registry Dispatcher Vocabulary Samples.
Variable env : Env.
Variable p : Pool.

(** C10.  Resolution of a registered name never fails: every entry of
    the registry resolves.  When the entry omits the ["pandas_data"] key,
    the guarded read yields [None], where a plain subscript would raise a
    missing-key error. *)
Theorem resolution_total name params :
  mapping p !! name = Some params ->
  exists cfg,
    resolve params = Ok cfg /\
    (params !! "pandas_data" = None ->
       pandas_data cfg = PyNone /\
       resolve_unguarded params = Raise (KeyError "pandas_data")).
Proof.
  intros H.
  destruct (mapping_entries p name params H)
    as (c & ds & pd & k & Hres & _ & _ & _ & Hpd).
  eexists. split; [exact Hres|]. intros Hnone. split; [by apply Hpd|].
  revert Hres. unfold resolve, resolve_unguarded, contains, getitem.
  rewrite Hnone.
  destruct (params !! "class"); [|done].
  by destruct (params !! "backtesting_datasource").
Qed.

(** C2.  A registered strategy without a backtest data source,
    dispatched with the live flag off, raises the unsupported-backtest
    error; on that path the trace is unchanged (no stats file is handed
    to any collaborator and the backtest entry point is not invoked), no
    dataset is relabelled and no instance is registered. *)
Theorem unsupported_backtest name params cfg w :
  mapping p !! name = Some params ->
  resolve params = Ok cfg ->
  backtesting_datasource cfg = PyNone ->
  let r := dispatch env (mapping p) false name w in
  r.1 = Raise (ValueError ("Backtesting is not supported for strategy "
                           +:+ name)) /\
  trace r.2 = trace w /\
  pool r.2 = pool w /\
  trader r.2 = trader w /\
  backtest_calls r.2 = backtest_calls w.
Proof.
  intros Hreg Hres Hds.
  destruct (mapping_entries p name params Hreg)
    as (c & ds & pd & k & Hres' & _).
  rewrite Hres in Hres'. injection Hres' as ->. simpl in Hds. subst ds.
  intros r. subst r.
  by rewrite (dispatch_unsupported env _ _ _ _ _ _ _ w Hreg Hres).
Qed.

(** C9.  The entry debt_trading has a data source (Yahoo) and a dataset
    binding that is [None].  Dispatched with the live flag off it gets
    past the unsupported-backtest check and then raises an attribute
    error at the iteration over the binding, before the backtest entry
    point is invoked: the trace and the pool are unchanged. *)
Theorem debt_trading_backtest_fails w :
  (exists params cfg,
     mapping p !! "debt_trading" = Some params /\
     resolve params = Ok cfg /\
     backtesting_datasource cfg = PySource YahooDataBacktesting /\
     pandas_data cfg = PyNone) /\
  let r := dispatch env (mapping p) false "debt_trading" w in
  r.1 = Raise (AttributeError "'NoneType' object has no attribute 'values'")
  /\ trace r.2 = trace w
  /\ pool r.2 = pool w
  /\ backtest_calls r.2 = backtest_calls w.
Proof.
  assert (Hreg : exists params,
             mapping p !! "debt_trading" = Some params /\
             resolve params
             = Ok (mkParams (PyClass DebtTrading)
                     (PySource YahooDataBacktesting) PyNone
                     (PyKwargs ∅) PyNone)).
  { exists debt_trading. split; [|by vm_compute].
    apply mapping_lookup. do 2 apply list_elem_of_further.
    apply list_elem_of_here. }
  destruct Hreg as (params & Hreg & Hres). split.
  - exists params. eexists. split; [exact Hreg|]. split; [exact Hres|].
    split; reflexivity.
  - intros r. subst r.
    rewrite (dispatch_no_pool env _ _ _ _ _ _ _ w Hreg Hres).
    repeat split; reflexivity.
Qed.

Lemma loop_events_no_run_all live evs :
  Forall (fun ev => loop_event live ev = true) evs ->
  count_events is_run_all evs = 0%nat.
Proof.
  unfold count_events. induction 1 as [|ev evs Hev _ IH]; [done|].
  cbn [List.filter]. by destruct ev.
Qed.

Lemma count_events_app f l1 l2 :
  count_events f (l1 ++ l2) = (count_events f l1 + count_events f l2)%nat.
Proof. unfold count_events. by rewrite List.filter_app, length_app. Qed.

(** C1 (as amended).  A name missing from the registry ends the run with
    an error at its position in the list.  The names before it are
    dispatched exactly as if they alone had been requested, and the run
    ends in the state they leave; the error is the unknown-strategy error
    unless one of them failed first.  Nothing is done for the unknown
    name or for any later name, and run-all is never invoked.  When the
    unknown name comes first the state is untouched. *)
Theorem unknown_name_stops_the_batch live pre bad post w :
  mapping p !! bad = None ->
  let r := main env (mapping p) (pre ++ bad :: post) live w in
  let r0 := dispatch_all env (mapping p) live pre w in
  r.1 = match r0.1 with
        | Ok _ => Raise (ValueError ("Strategy " +:+ bad
                                     +:+ " does not exist"))
        | Raise e => Raise e
        end /\
  r.2 = r0.2 /\
  (pre = [] -> r.2 = w) /\
  count_events is_run_all (trace r.2) = count_events is_run_all (trace w).
Proof.
  intros Hbad r r0. subst r r0.
  rewrite main_run, (dispatch_all_unknown env _ live pre bad post w Hbad).
  destruct (dispatch_all_events env (mapping p) live pre w)
    as (evs & Htr & Hev).
  assert (Hcount : count_events is_run_all
                     (trace (dispatch_all env (mapping p) live pre w).2)
                   = count_events is_run_all (trace w)).
  { rewrite Htr, count_events_app, (loop_events_no_run_all live evs Hev).
    lia. }
  split; [|split; [|split]].
  - by destruct (dispatch_all env (mapping p) live pre w) as [[[]|e] w1].
  - by destruct (dispatch_all env (mapping p) live pre w) as [[[]|e] w1].
  - by intros ->.
  - by destruct (dispatch_all env (mapping p) live pre w) as [[[]|e] w1].
Qed.

Lemma count_events_cons f ev l :
  count_events f (ev :: l)
  = ((if f ev then 1 else 0) + count_events f l)%nat.
Proof. unfold count_events. cbn. by destruct (f ev). Qed.

Lemma registration_counts insts :
  count_events is_construct (registration insts) = length insts /\
  count_events is_add_strategy (registration insts) = length insts /\
  count_events is_run_all (registration insts) = 0%nat /\
  count_events is_backtest (registration insts) = 0%nat.
Proof.
  unfold count_events, registration.
  induction insts as [|i insts (IH1 & IH2 & IH3 & IH4)]; [done|].
  cbn. by rewrite IH1, IH2, IH3, IH4.
Qed.

Lemma shutdown_counts :
  count_events is_construct (shutdown env) = 0%nat /\
  count_events is_add_strategy (shutdown env) = 0%nat /\
  count_events is_run_all (shutdown env) = 0%nat /\
  count_events is_backtest (shutdown env) = 0%nat.
Proof.
  unfold shutdown. rewrite !count_events_app.
  assert (H : forall f, (forall c v, f (EvPrintCounter c v) = false) ->
            count_events f
              ((fun cv : string * Q => EvPrintCounter cv.1 cv.2)
                 <$> counters env) = 0%nat).
  { intros f Hf. unfold count_events.
    induction (counters env) as [|[c v] cs IH]; [done|].
    cbn. by rewrite Hf. }
  by rewrite !H.
Qed.

(** The live loop over registered names: one instance per name, built
    against the broker and appended to the trader, in request order. *)
Lemma dispatch_all_live names : forall w,
  Forall (fun n => is_Some (mapping p !! n)) names ->
  exists insts w',
    dispatch_all env (mapping p) true names w = (Ok tt, w') /\
    pool w' = pool w /\
    trader w' = trader w ++ insts /\
    trace w' = trace w ++ registration insts /\
    inst_name <$> insts = names /\
    Forall (fun i => inst_broker i = alpaca_broker /\
                     inst_budget i = budget) insts.
Proof.
  induction names as [|n names IH]; intros w Hval.
  - exists [], w. cbn. unfold mret, M_ret. by rewrite !app_nil_r.
  - apply Forall_cons in Hval as [[params Hreg] Hval].
    destruct (mapping_entries p n params Hreg)
      as (c & ds & pd & k & Hres & _).
    cbn [dispatch_all]. unfold mbind, M_bind.
    rewrite (dispatch_live env _ _ _ _ _ _ _ _ w Hreg Hres).
    destruct (IH (after_live env c n k w) Hval)
      as (insts & w' & Hrun & Hp & Htd & Htr & Hn & Hb).
    rewrite Hrun. eexists (_ :: insts), w'.
    split; [done|]. split; [done|].
    split; [by rewrite Htd; cbn; rewrite <- app_assoc|].
    split; [by rewrite Htr; cbn; rewrite <- app_assoc|].
    split; [cbn; by rewrite Hn|]. by constructor.
Qed.

(** C4.  With the live flag set and every requested name registered, the
    run completes; the loop constructs one instance per name against the
    shared broker and registers it with the trader, run-all is invoked
    exactly once, after all the registrations, on exactly those
    instances, and the backtest entry point is never invoked. *)
Theorem live_run_registers_then_runs names w :
  Forall (fun n => is_Some (mapping p !! n)) names ->
  let r := main env (mapping p) names true w in
  exists insts,
    r.1 = Ok tt /\
    inst_name <$> insts = names /\
    Forall (fun i => inst_broker i = alpaca_broker) insts /\
    trader r.2 = trader w ++ insts /\
    trace r.2 = trace w ++ registration insts
                        ++ EvRunAll (trader w ++ insts) :: shutdown env /\
    let evs := registration insts
               ++ EvRunAll (trader w ++ insts) :: shutdown env in
    count_events is_construct evs = length names /\
    count_events is_add_strategy evs = length names /\
    count_events is_run_all evs = 1%nat /\
    count_events is_backtest evs = 0%nat.
Proof.
  intros Hval r. subst r.
  destruct (dispatch_all_live names w Hval)
    as (insts & w' & Hrun & _ & Htd & Htr & Hn & Hb).
  exists insts. rewrite main_run, Hrun. cbn [fst snd trader trace].
  split; [done|]. split; [done|].
  split; [eapply Forall_impl; [exact Hb|]; by intros i []|].
  split; [done|]. split; [by rewrite Htr, Htd, <- app_assoc|].
  destruct (registration_counts insts) as (R1 & R2 & R3 & R4).
  destruct shutdown_counts as (S1 & S2 & S3 & S4).
  assert (Hlen : length insts = length names)
    by (by rewrite <- Hn, length_fmap).
  cbv zeta.
  rewrite !count_events_app, !count_events_cons,
    R1, R2, R3, R4, S1, S2, S3, S4, Hlen.
  cbn. repeat split; lia.
Qed.

(** A dispatch of the registry that returns has taken one of two shapes,
    by mode. *)
Lemma dispatch_ok live name w w' :
  dispatch env (mapping p) live name w = (Ok tt, w') ->
  exists params c ds pd k,
    mapping p !! name = Some params /\
    resolve params = Ok (mkParams (PyClass c) ds pd (PyKwargs k) PyNone) /\
    (if live then w' = after_live env c name k w
     else (exists d, ds = PySource d) /\ pd = PyPool /\
          w' = after_backtest env c name ds k PyNone w).
Proof.
  intros Hrun.
  destruct (mapping p !! name) as [params|] eqn:Hreg;
    [|by rewrite dispatch_unknown in Hrun].
  destruct (mapping_entries p name params Hreg)
    as (c & ds & pd & k & Hres & Hds & Hpd & _).
  exists params, c, ds, pd, k. split; [done|]. split; [done|].
  destruct live.
  - rewrite (dispatch_live env _ _ _ _ _ _ _ _ w Hreg Hres) in Hrun.
    by injection Hrun.
  - destruct Hds as [[d ->]| ->].
    + destruct Hpd as [-> | ->].
      * rewrite (dispatch_backtest env _ _ _ _ _ _ _ w Hreg Hres) in Hrun.
        split; [by exists d|]. split; [done|]. by injection Hrun.
      * by rewrite (dispatch_no_pool env _ _ _ _ _ _ _ w Hreg Hres) in Hrun.
    + by rewrite (dispatch_unsupported env _ _ _ _ _ _ _ w Hreg Hres)
        in Hrun.
Qed.

Lemma stats_files_app tr evs :
  stats_files (tr ++ evs) = stats_files tr ++ stats_files evs.
Proof. apply omap_app. Qed.

Lemma dispatch_stats_file live name params cfg c w :
  mapping p !! name = Some params ->
  resolve params = Ok cfg ->
  strategy_class cfg = PyClass c ->
  let r := dispatch env (mapping p) live name w in
  let path := stats_file_path (class_name c) (time_at env (time_calls w)) in
  stats_file r.2 = Some path /\
  (r.1 = Ok tt -> stats_files (trace r.2) = stats_files (trace w) ++ [path]).
Proof.
  intros Hreg Hres Hc.
  destruct (mapping_entries p name params Hreg)
    as (c' & ds & pd & k & Hres' & Hds & Hpd & _).
  rewrite Hres in Hres'. injection Hres' as ->. cbn in Hc.
  injection Hc as <-. cbv zeta. destruct live.
  - rewrite (dispatch_live env _ _ _ _ _ _ _ _ w Hreg Hres).
    unfold after_live. cbn [fst snd trace stats_file].
    split; [done|]. intros _. by rewrite stats_files_app.
  - destruct Hds as [[d ->]| ->].
    + destruct Hpd as [-> | ->].
      * rewrite (dispatch_backtest env _ _ _ _ _ _ _ w Hreg Hres).
        unfold after_backtest. cbn [fst snd trace stats_file].
        split; [done|]. intros _. by rewrite stats_files_app.
      * by rewrite (dispatch_no_pool env _ _ _ _ _ _ _ w Hreg Hres).
    + by rewrite (dispatch_unsupported env _ _ _ _ _ _ _ w Hreg Hres).
Qed.

Lemma py_int_floor t : (0 <= t)%Q -> py_int t = Qfloor t.
Proof.
  destruct t as [n d]. unfold Qle, py_int, Qfloor. cbn. intros H.
  apply Z.quot_div_nonneg; lia.
Qed.

Lemma same_second_py_int t t' : same_second t t' -> py_int t = py_int t'.
Proof.
  intros [H|(H0 & H0' & Hf)]; [done|].
  by rewrite !py_int_floor.
Qed.

(** C5.  Every dispatch of a registered name generates the stats-file
    path [logs/strategy_], the name of the strategy class, an underscore,
    the wall-clock reading taken at that dispatch truncated to whole
    seconds, and [.csv]; when the dispatch goes through, that path is the
    one path handed to its collaborator.  Hence another dispatch of the
    same class whose reading falls in the same second generates the very
    same path. *)
Theorem stats_file_naming live name params cfg c w :
  mapping p !! name = Some params ->
  resolve params = Ok cfg ->
  strategy_class cfg = PyClass c ->
  let r := dispatch env (mapping p) live name w in
  let t := time_at env (time_calls w) in
  let path := "logs/strategy_" +:+ class_name c +:+ "_"
              +:+ pretty (Z.quot (Qnum t) (Z.pos (Qden t))) +:+ ".csv" in
  stats_file r.2 = Some path /\
  (r.1 = Ok tt -> stats_files (trace r.2) = stats_files (trace w) ++ [path])
  /\
  forall live' name' params' cfg' w',
    mapping p !! name' = Some params' ->
    resolve params' = Ok cfg' ->
    strategy_class cfg' = PyClass c ->
    same_second t (time_at env (time_calls w')) ->
    stats_file (dispatch env (mapping p) live' name' w').2 = Some path.
Proof.
  intros Hreg Hres Hc r t path.
  destruct (dispatch_stats_file live name params cfg c w Hreg Hres Hc)
    as [Hvar Hout].
  split; [exact Hvar|]. split; [exact Hout|].
  intros live' name' params' cfg' w' Hreg' Hres' Hc' Hsame.
  destruct (dispatch_stats_file live' name' params' cfg' c w'
              Hreg' Hres' Hc') as [Hvar' _].
  cbv zeta in Hvar'. rewrite Hvar'. subst path t. unfold stats_file_path.
  apply same_second_py_int in Hsame. unfold py_int in Hsame.
  by rewrite Hsame.
Qed.

Lemma labels_relabel name (q : Pool) :
  labels (relabel_pool name q) = replicate (length q) name.
Proof.
  unfold labels, relabel_pool. induction q as [|kv q IH]; [done|].
  cbn. by f_equal.
Qed.

Lemma keys_relabel name (q : Pool) : keys (relabel_pool name q) = keys q.
Proof.
  unfold keys, relabel_pool. induction q as [|kv q IH]; [done|].
  cbn. by f_equal.
Qed.

Lemma length_relabel name (q : Pool) :
  length (relabel_pool name q) = length q.
Proof. unfold relabel_pool. apply length_fmap. Qed.

(** C6 (as amended).  A backtest dispatch of a pool-bound strategy
    rewrites, in place, the owning-strategy label of every dataset of the
    shared pool to the dispatched name, and the backtest entry point, the
    first collaborator called, receives the pool so relabelled.  After a
    second such dispatch every label is the second name: the labels
    differ from the first name when the two names differ, and still
    equal it when the same name is dispatched twice. *)
Theorem backtest_relabels_pool n1 n2 w :
  pool_bound p n1 ->
  pool_bound p n2 ->
  let r1 := dispatch env (mapping p) false n1 w in
  let r2 := dispatch env (mapping p) false n2 r1.2 in
  r1.1 = Ok tt /\
  pool r1.2 = relabel_pool n1 (pool w) /\
  keys (pool r1.2) = keys (pool w) /\
  Forall (fun l => l = n1) (labels (pool r1.2)) /\
  (exists call rest,
     trace r1.2 = trace w ++ EvBacktest call :: rest /\
     bt_name call = n1 /\
     bt_pandas_data call = Some (pool r1.2)) /\
  r2.1 = Ok tt /\
  labels (pool r2.2) = replicate (length (pool w)) n2 /\
  (n1 <> n2 -> Forall (fun l => l <> n1) (labels (pool r2.2))) /\
  (n1 = n2 -> labels (pool r2.2) = labels (pool r1.2)).
Proof.
  intros (ps1 & c1 & d1 & k1 & cf1 & Hreg1 & Hres1)
         (ps2 & c2 & d2 & k2 & cf2 & Hreg2 & Hres2) r1 r2.
  subst r2 r1.
  rewrite (dispatch_backtest env _ _ _ _ _ _ _ w Hreg1 Hres1). cbn [fst snd].
  rewrite (dispatch_backtest env _ _ _ _ _ _ _ _ Hreg2 Hres2). cbn [fst snd].
  unfold after_backtest. cbn [pool trace].
  rewrite !labels_relabel, !length_relabel, keys_relabel.
  repeat split; try done.
  - by apply Forall_replicate.
  - by do 2 eexists.
  - intros Hne. apply Forall_replicate. congruence.
  - by intros ->.
Qed.


End Dispatch_claims.

(** ** The theorems at the sample inputs *)

Import DataLoader Registry Dispatcher Vocabulary Samples.

Lemma sample_file_well_formed : well_formed_file sample_file.
Proof. repeat constructor; by eexists. Qed.

Lemma loaded_dataset_normalized_witness :
  exists d,
    load_ticker sample_fs "SPY" = Ok (mkAsset "SPY" "stock", d) /\
    length (rows (df d)) = 2%nat.
Proof.
  destruct (loaded_dataset_normalized sample_fs "SPY" sample_file
              eq_refl sample_file_well_formed)
    as (d & Hload & _ & _ & Hcount & Hs & He & _).
  exists d. split; [exact Hload|].
  rewrite Hcount, Hs, He. reflexivity.
Defined.

(** C7, as stated, fails.  A file of the shape of section 6 in which
    two lines inside the window carry the same date loads to a dataset
    that keeps both lines, and so is not strictly ascending by date. *)
Lemma repeated_date_counterexample :
  well_formed_file repeated_date_file /\
  exists d,
    load_ticker repeated_date_fs "SPY" = Ok (mkAsset "SPY" "stock", d) /\
    length (rows (df d)) = 3%nat /\
    ~ StronglySorted strictly_before (rows (df d)).
Proof.
  split; [repeat constructor; by eexists|].
  eexists. split; [vm_compute; reflexivity|].
  split; [reflexivity|].
  intros Hs. apply strictly_ascending_distinct in Hs.
  revert Hs. apply (bool_decide_unpack _). vm_compute. exact I.
Qed.

Lemma sample_pool_keys :
  symbol <$> keys sample_pool = ["SPY"; "DJP"; "TLT"; "GLD"; "IEF"].
Proof. by vm_compute. Qed.

Lemma resolution_total_witness :
  exists cfg,
    resolve intraday_momentum = Ok cfg /\
    (intraday_momentum !! "pandas_data" = None ->
       pandas_data cfg = PyNone /\
       resolve_unguarded intraday_momentum = Raise (KeyError "pandas_data")).
Proof.
  apply (resolution_total sample_pool "intraday_momentum").
  apply mapping_lookup. do 3 apply list_elem_of_further.
  apply list_elem_of_here.
Defined.

Lemma unsupported_backtest_witness :
  let r := dispatch sample_env (mapping sample_pool) false
             "intraday_momentum" (init_world sample_pool) in
  r.1 = Raise (ValueError ("Backtesting is not supported for strategy "
                           +:+ "intraday_momentum")) /\
  trace r.2 = trace (init_world sample_pool) /\
  pool r.2 = pool (init_world sample_pool) /\
  trader r.2 = trader (init_world sample_pool) /\
  backtest_calls r.2 = backtest_calls (init_world sample_pool).
Proof.
  apply (unsupported_backtest sample_env sample_pool "intraday_momentum"
           intraday_momentum
           (mkParams (PyClass IntradayMomentum) PyNone PyNone
                     (PyKwargs ∅) PyNone)).
  - apply mapping_lookup. do 3 apply list_elem_of_further.
    apply list_elem_of_here.
  - vm_compute. reflexivity.
  - reflexivity.
Defined.

Lemma nope_is_unknown : mapping sample_pool !! "nope" = None.
Proof.
  unfold mapping. apply not_elem_of_list_to_map.
  apply (bool_decide_unpack _). vm_compute. exact I.
Qed.

Lemma unknown_name_stops_the_batch_witness :
  let r := main sample_env (mapping sample_pool)
             (["buy_and_hold"] ++ "nope" :: ["simple"]) false
             (init_world sample_pool) in
  let r0 := dispatch_all sample_env (mapping sample_pool) false
              ["buy_and_hold"] (init_world sample_pool) in
  r.1 = match r0.1 with
        | Ok _ => Raise (ValueError ("Strategy " +:+ "nope"
                                     +:+ " does not exist"))
        | Raise e => Raise e
        end /\
  r.2 = r0.2 /\
  (["buy_and_hold"] = [] -> r.2 = init_world sample_pool) /\
  count_events is_run_all (trace r.2)
  = count_events is_run_all (trace (init_world sample_pool)).
Proof.
  apply (unknown_name_stops_the_batch sample_env sample_pool false
           ["buy_and_hold"] "nope" ["simple"] (init_world sample_pool)).
  exact nope_is_unknown.
Defined.

(** C1, as stated, fails.  With a registered name ahead of the unknown
    one and the live flag off, the run does end with the unknown-strategy
    error, but the batch did not abort before any run executed: the first
    name has been backtested, with a stats-file path of its own. *)
Lemma unknown_name_after_valid_counterexample :
  mapping sample_pool !! "nope" = None /\
  ~ aborted_before_any_run
      (program sample_fs sample_env ["buy_and_hold"; "nope"] false).
Proof.
  split; [exact nope_is_unknown|].
  intros (_ & _ & Hbt & _). vm_compute in Hbt. discriminate.
Qed.

Lemma live_run_registers_then_runs_witness :
  let names := ["momentum_pandas"; "diversification"] in
  let w := init_world sample_pool in
  let r := main sample_env (mapping sample_pool) names true w in
  exists insts,
    r.1 = Ok tt /\
    inst_name <$> insts = names /\
    Forall (fun i => inst_broker i = alpaca_broker) insts /\
    trader r.2 = trader w ++ insts /\
    trace r.2 = trace w ++ registration insts
                        ++ EvRunAll (trader w ++ insts)
                        :: shutdown sample_env /\
    let evs := registration insts
               ++ EvRunAll (trader w ++ insts) :: shutdown sample_env in
    count_events is_construct evs = length names /\
    count_events is_add_strategy evs = length names /\
    count_events is_run_all evs = 1%nat /\
    count_events is_backtest evs = 0%nat.
Proof.
  apply (live_run_registers_then_runs sample_env sample_pool
           ["momentum_pandas"; "diversification"] (init_world sample_pool)).
  apply Forall_cons. split.
  - apply mapping_names. apply list_elem_of_here.
  - apply Forall_cons. split; [|constructor].
    apply mapping_names. apply list_elem_of_further, list_elem_of_here.
Defined.

Lemma stats_file_naming_witness :
  let w := init_world sample_pool in
  let r := dispatch sample_env (mapping sample_pool) true "simple" w in
  let r' := dispatch sample_env (mapping sample_pool) true "simple" r.2 in
  stats_file r.2 = Some "logs/strategy_Simple_1572775200.csv" /\
  stats_file r'.2 = Some "logs/strategy_Simple_1572775200.csv".
Proof.
  intros w r r'.
  assert (Hreg : mapping sample_pool !! "simple" = Some simple).
  { apply mapping_lookup. do 6 apply list_elem_of_further.
    apply list_elem_of_here. }
  assert (Hres : resolve simple
                 = Ok (mkParams (PyClass Simple)
                         (PySource PandasDataBacktesting) PyPool
                         (PyKwargs ∅) PyNone))
    by (vm_compute; reflexivity).
  destruct (stats_file_naming sample_env sample_pool true "simple" simple _
              Simple w Hreg Hres eq_refl) as (Hpath & _ & Hsame).
  split.
  - etransitivity; [exact Hpath|]. vm_compute. reflexivity.
  - etransitivity.
    + apply (Hsame true "simple" simple _ r.2 Hreg Hres eq_refl).
      right. vm_compute. repeat split; discriminate.
    + vm_compute. reflexivity.
Defined.

Lemma backtest_relabels_pool_witness :
  let r1 := dispatch sample_env (mapping sample_pool) false "buy_and_hold"
              (init_world sample_pool) in
  let r2 := dispatch sample_env (mapping sample_pool) false "simple" r1.2 in
  labels (pool r1.2) = replicate 5 "buy_and_hold" /\
  labels (pool r2.2) = replicate 5 "simple" /\
  Forall (fun l => l <> "buy_and_hold") (labels (pool r2.2)).
Proof.
  destruct (backtest_relabels_pool sample_env sample_pool "buy_and_hold"
              "simple" (init_world sample_pool))
    as (_ & Hpool & _ & _ & _ & _ & Hl2 & Hne & _).
  - apply pool_bound_names. do 2 apply list_elem_of_further.
    apply list_elem_of_here.
  - apply pool_bound_names. do 3 apply list_elem_of_further.
    apply list_elem_of_here.
  - cbv zeta. split; [|split].
    + rewrite Hpool. vm_compute. reflexivity.
    + etransitivity; [exact Hl2|]. vm_compute. reflexivity.
    + apply Hne. discriminate.
Defined.

(** C6, as stated, fails.  When the same pool-bound name is dispatched
    twice, both dispatches go through and, after the second one, no label
    of the pool differs from the first dispatch's name. *)
Lemma same_name_twice_counterexample :
  let r1 := dispatch sample_env (mapping sample_pool) false "simple"
              (init_world sample_pool) in
  let r2 := dispatch sample_env (mapping sample_pool) false "simple" r1.2 in
  r1.1 = Ok tt /\ r2.1 = Ok tt /\
  length (pool r2.2) = 5%nat /\
  ~ Exists (fun l => l <> "simple") (labels (pool r2.2)).
Proof.
  cbv zeta. split; [by vm_compute|]. split; [by vm_compute|].
  split; [by vm_compute|].
  apply (bool_decide_unpack _). vm_compute. exact I.
Qed.



(** ** The scenarios of section 8, run on the sample inputs *)

Example datetime_epoch : datetime 1970 1 1 = 0.
Proof. reflexivity. Qed.

Example datetime_window_start :
  backtesting_start = 17955 * ns_per_day.
Proof. reflexivity. Qed.

(** Scenario A: one backtest call with budget 40000, one stats file, one
    SPY benchmark computation. *)
Example scenario_A :
  let r := program sample_fs sample_env ["buy_and_hold"] false in
  r.1 = Ok tt /\
  count_events is_backtest (trace r.2) = 1%nat /\
  stats_files (trace r.2) = ["logs/strategy_BuyAndHold_1572775200.csv"] /\
  benchmarks (trace r.2)
  = [("SPY", datetime 2019 2 28, datetime 2019 12 1)].
Proof. cbv zeta. repeat split; by vm_compute. Qed.

(** Scenario B: an immediate unsupported-backtest failure. *)
Example scenario_B :
  let r := program sample_fs sample_env ["intraday_momentum"] false in
  r.1 = Raise (ValueError
                 "Backtesting is not supported for strategy intraday_momentum")
  /\ trace r.2 = [].
Proof. cbv zeta. split; by vm_compute. Qed.

(** Scenario C: two registrations, one run-all, no backtest. *)
Example scenario_C :
  let r := program sample_fs sample_env
             ["momentum_pandas"; "diversification"] true in
  r.1 = Ok tt /\
  (inst_name <$> trader r.2) = ["momentum_pandas"; "diversification"] /\
  count_events is_run_all (trace r.2) = 1%nat /\
  count_events is_backtest (trace r.2) = 0%nat.
Proof. cbv zeta. repeat split; by vm_compute. Qed.

(** * Further properties *)

(** ** The loader loop (lines 40-78) *)

Section Loader_loop.
Import Coverage.

Lemma load_ticker_entry (fs : filesystem) t kv :
  load_ticker fs t = Ok kv ->
  kv.1 = ticker_asset t /\ strategy kv.2 = "my_strategy" /\
  asset kv.2 = ticker_asset t.
Proof.
  unfold load_ticker.
  destruct (read_csv fs ("data/" +:+ t +:+ ".csv")) as [d|]; [|done].
  cbn [obind].
  destruct (select canonical (rename rename_map d)) as [d'|]; [|done].
  cbn [obind]. intros H. injection H as <-. done.
Qed.

Lemma load_pool_shape (fs : filesystem) pool :
  load_pool fs = Ok pool ->
  Forall2 (fun t kv => load_ticker fs t = Ok kv) tickers pool /\
  keys pool = ticker_asset <$> tickers /\
  Forall (fun kv : Asset * Data => asset kv.2 = kv.1) pool /\
  labels pool = replicate (length tickers) "my_strategy" /\
  NoDup (keys pool).
Proof.
  unfold load_pool, tickers. cbn [load_loop].
  repeat match goal with
  | |- context [load_ticker fs ?t] =>
      let kv := fresh "kv" in
      let H := fresh "H" in
      destruct (load_ticker fs t) as [kv|] eqn:H; [|done];
      let a := fresh "a" in
      let d := fresh "d" in
      destruct kv as [a d];
      destruct (load_ticker_entry fs t _ H) as (? & ? & ?);
      cbn [fst snd] in *; subst a;
      cbn [obind fst snd dict_set]
  end.
  repeat match goal with
  | |- context [decide (?x = ?y)] =>
      destruct (decide (x = y)) as [Heq|_]; [by inversion Heq|]
  end.
  intros Hp. injection Hp as <-.
  split; [by repeat constructor|]. split; [done|].
  split; [by repeat constructor|].
  split; [cbn; by repeat f_equal|].
  cbn. apply (bool_decide_unpack _). vm_compute. exact I.
Qed.

(** X2.  When the loader succeeds, the pool has one dataset per ticker,
    in the order of [tickers], keyed by the stock asset of that ticker;
    each dataset is the one built from that ticker's file, and all carry
    the placeholder label [my_strategy]. *)
Theorem loaded_pool_structure (fs : filesystem) pool :
  load_pool fs = Ok pool ->
  Forall2 (fun t kv => load_ticker fs t = Ok kv) tickers pool /\
  keys pool = ticker_asset <$> tickers /\
  Forall (fun kv : Asset * Data => asset kv.2 = kv.1) pool /\
  labels pool = replicate (length tickers) "my_strategy" /\
  NoDup (keys pool).
Proof. apply load_pool_shape. Qed.

End Loader_loop.

(** ** The dispatch loop and the shutdown, for any registry
    (lines 159-218) *)

Section Loop_facts.
Import Coverage.
Variable env : Env.
Variable registry : gmap string (gmap string pyval).

(** The loop over a list of names followed by another. *)
Lemma dispatch_all_app live xs ys w :
  dispatch_all env registry live (xs ++ ys) w
  = match dispatch_all env registry live xs w with
    | (Ok _, w') => dispatch_all env registry live ys w'
    | (Raise e, w') => (Raise e, w')
    end.
Proof.
  revert w. induction xs as [|n xs IH]; intros w; [done|].
  cbn [app dispatch_all]. unfold mbind, M_bind.
  destruct (dispatch env registry live n w) as [[[]|e] w1]; [|done].
  apply IH.
Qed.

Ltac run_step :=
  repeat (unfold mbind, M_bind, mret, M_ret, lift, raise, emit, time,
            perf_counter, construct, add_strategy, relabel, backtest,
            dunder_name, assign_stats_file; cbn).

Lemma unlabelled_relabel name (q : Pool) :
  unlabelled (relabel_pool name q) = unlabelled q.
Proof.
  unfold unlabelled, relabel_pool. induction q as [|kv q IH]; [done|].
  cbn. by f_equal.
Qed.

Lemma untouched_refl live w w' :
  pool w' = pool w -> trader w' = trader w -> trace w' = trace w ->
  perf_calls w' = perf_calls w -> backtest_calls w' = backtest_calls w ->
  untouched live w w'.
Proof.
  intros Hp Ht Htr Hpc Hbc. unfold untouched. rewrite Hp, Ht, Htr.
  split; [done|]. split; [exists []; by rewrite app_nil_r|].
  split; [exists []; split; [by rewrite app_nil_r|constructor]|].
  by destruct live.
Qed.

Lemma untouched_trans live w w1 w2 :
  untouched live w w1 -> untouched live w1 w2 -> untouched live w w2.
Proof.
  intros (Hp1 & [i1 Ht1] & (e1 & Htr1 & He1) & Hm1)
         (Hp2 & [i2 Ht2] & (e2 & Htr2 & He2) & Hm2).
  split; [congruence|].
  split; [exists (i1 ++ i2); by rewrite Ht2, Ht1, app_assoc|].
  split.
  - exists (e1 ++ e2). split; [by rewrite Htr2, Htr1, app_assoc|].
    by apply Forall_app.
  - destruct live.
    + destruct Hm1 as (? & ? & ?), Hm2 as (? & ? & ?).
      repeat split; congruence.
    + congruence.
Qed.

Lemma dispatch_untouched live name w :
  untouched live w (dispatch env registry live name w).2.
Proof.
  unfold dispatch.
  destruct (registry !! name) as [params|]; [|by apply untouched_refl].
  unfold mbind at 1, M_bind at 1, lift.
  destruct (resolve params) as [[sc ds pd kw cf]|e];
    [|by apply untouched_refl].
  destruct sc as [| |c| | |]; try (by apply untouched_refl).
  destruct live.
  - destruct kw; run_step; try (by apply untouched_refl).
    split; [done|]. split; [by eexists|].
    split; [|done].
    eexists. split; [rewrite <- !app_assoc; reflexivity|].
    by repeat constructor.
  - destruct ds; run_step; try (by apply untouched_refl);
      (destruct pd; run_step; try (by apply untouched_refl);
       (destruct kw; run_step; try (by apply untouched_refl)));
      (split; [apply unlabelled_relabel|];
       split; [exists []; by rewrite app_nil_r|];
       split; [|done];
       eexists; split;
       [first [symmetry; apply app_nil_r
              | rewrite <- !app_assoc; reflexivity]|];
       by repeat constructor).
Qed.

Lemma dispatch_all_untouched live names : forall w,
  untouched live w (dispatch_all env registry live names w).2.
Proof.
  induction names as [|n names IH]; intros w.
  - by apply untouched_refl.
  - cbn [dispatch_all]. unfold mbind, M_bind.
    pose proof (dispatch_untouched live n w) as H1.
    destruct (dispatch env registry live n w) as [[[]|e] w1]; [|done].
    cbn [snd] in H1. eapply untouched_trans; [exact H1|apply IH].
Qed.

Lemma keys_unlabelled (q : Pool) : keys q = (unlabelled q).*1.
Proof.
  unfold keys, unlabelled. induction q as [|kv q IH]; [done|].
  cbn. by f_equal.
Qed.

(** X5.  Whatever the registry holds and whatever the outcome, a run
    never changes the keys of the pool nor anything of a dataset but its
    owning-strategy label, and it only appends to the trader.  With the
    live flag set it leaves the pool as it is, labels included, never
    reads the perf counter and never calls the backtest entry point; with
    the flag off it registers nothing with the trader. *)
Theorem run_frame names live w :
  let r := main env registry names live w in
  unlabelled (pool r.2) = unlabelled (pool w) /\
  keys (pool r.2) = keys (pool w) /\
  (exists insts, trader r.2 = trader w ++ insts) /\
  if live
  then pool r.2 = pool w /\ perf_calls r.2 = perf_calls w /\
       backtest_calls r.2 = backtest_calls w
  else trader r.2 = trader w.
Proof.
  cbv zeta. rewrite main_run.
  destruct (dispatch_all_untouched live names w)
    as (Hp & Ht & _ & Hm).
  destruct (dispatch_all env registry live names w) as [[[]|e] w1];
    cbn [fst snd pool trader perf_calls backtest_calls] in *;
    (split; [done|]); (split; [by rewrite !keys_unlabelled, Hp|]);
    by split.
Qed.

Lemma shutdown_events :
  Forall (fun ev => is_shutdown ev = true) (shutdown env).
Proof.
  unfold shutdown. apply Forall_app. split; [|by repeat constructor].
  apply Forall_fmap, Forall_true. by intros [].
Qed.

(** X6.  The counters are printed and the closing message logged exactly
    when no dispatch raised: a run that returns ends its trace with the
    counter prints, in the order of the counters, and the closing log,
    and produced none of those before; a run that raises produces no
    counter print and no closing log, and does not reach run-all. *)
Theorem shutdown_only_after_success names live w :
  let r := main env registry names live w in
  Forall (fun ev => is_shutdown ev = true) (shutdown env) /\
  exists evs,
    trace r.2 = trace w ++ evs /\
    match r.1 with
    | Ok _ =>
        exists loop,
          evs = loop ++ shutdown env /\
          Forall (fun ev => is_shutdown ev = false) loop
    | Raise _ =>
        Forall (fun ev => is_shutdown ev = false) evs /\
        Forall (fun ev => is_run_all ev = false) evs
    end.
Proof.
  cbv zeta. split; [exact shutdown_events|]. rewrite main_run.
  destruct (dispatch_all_untouched live names w)
    as (_ & _ & (evs & Htr & Hev) & _).
  destruct (dispatch_all env registry live names w) as [[[]|e] w1];
    cbn [fst snd trace] in *.
  - exists (evs ++ (if live then [EvRunAll (trader w1)] else [])
                ++ shutdown env).
    split; [by rewrite Htr, <- app_assoc|].
    exists (evs ++ (if live then [EvRunAll (trader w1)] else [])).
    split; [by rewrite <- app_assoc|].
    apply Forall_app. split.
    + eapply Forall_impl; [exact Hev|]. by intros ev [].
    + destruct live; by repeat constructor.
  - exists evs. split; [done|].
    split; (eapply Forall_impl; [exact Hev|]; by intros ev []).
Qed.

End Loop_facts.

(** ** Runs over the registry (lines 81-132 and 159-213) *)

Section Registry_runs.
Import Coverage.
Variable env : Env.
Variable p : Pool.

Lemma main_returns_iff registry names live w :
  (main env registry names live w).1 = Ok tt <->
  (dispatch_all env registry live names w).1 = Ok tt.
Proof.
  rewrite main_run.
  by destruct (dispatch_all env registry live names w) as [[[]|e] w1].
Qed.

Lemma dispatch_all_returns live names : forall w,
  (dispatch_all env (mapping p) live names w).1 = Ok tt ->
  Forall (fun n => if live then is_Some (mapping p !! n)
                   else pool_bound p n) names.
Proof.
  induction names as [|n names IH]; intros w Hok; [constructor|].
  cbn [dispatch_all] in Hok. unfold mbind, M_bind in Hok.
  destruct (dispatch env (mapping p) live n w) as [[[]|e] w1] eqn:Hn;
    [|done].
  constructor; [|by apply (IH w1)].
  destruct (dispatch_ok env p live n w w1 Hn)
    as (params & c & ds & pd & k & Hreg & Hres & Hshape).
  destruct live; [by eexists|].
  destruct Hshape as ((d & ->) & -> & _).
  by exists params, c, d, k, PyNone.
Qed.

Lemma relabel_relabel n m (q : Pool) :
  relabel_pool n (relabel_pool m q) = relabel_pool n q.
Proof.
  unfold relabel_pool. induction q as [|kv q IH]; [done|].
  cbn. by f_equal.
Qed.

Lemma relabelled_cons n names (q : Pool) :
  relabelled names (relabel_pool n q) = relabelled (n :: names) q.
Proof.
  unfold relabelled. rewrite last_cons.
  destruct (last names); [apply relabel_relabel|done].
Qed.

(** The backtest loop over pool-bound names, in closed form. *)
Lemma dispatch_all_backtest names : forall w,
  Forall (pool_bound p) names ->
  exists w' evs,
    dispatch_all env (mapping p) false names w = (Ok tt, w') /\
    trace w' = trace w ++ evs /\
    trader w' = trader w /\
    pool w' = relabelled names (pool w) /\
    bt_name <$> backtests evs = names /\
    Forall (fun c => bt_budget c = budget /\
                     bt_start c = backtesting_start /\
                     bt_end c = backtesting_end /\
                     bt_pandas_data c
                     = Some (relabel_pool (bt_name c) (pool w)))
           (backtests evs) /\
    benchmarks evs
    = replicate (length names)
        (benchmark_asset, backtesting_start, backtesting_end) /\
    Forall (fun ev => live_event ev = false) evs.
Proof.
  induction names as [|n names IH]; intros w Hb.
  - exists w, []. cbn. unfold mret, M_ret. rewrite app_nil_r.
    by repeat split.
  - apply Forall_cons in Hb as [(ps & c & d & k & cf & Hreg & Hres) Hb].
    cbn [dispatch_all]. unfold mbind, M_bind.
    rewrite (dispatch_backtest env _ _ _ _ _ _ _ w Hreg Hres).
    destruct (IH (after_backtest env c n (PySource d) k cf w) Hb)
      as (w' & evs & Hrun & Htr & Htd & Hp & Hn & Hc & Hbm & Hl).
    rewrite Hrun. eexists w', (_ ++ evs).
    split; [done|].
    split; [rewrite Htr; unfold after_backtest; cbn [trace];
            by rewrite <- app_assoc|].
    split; [done|].
    split; [rewrite Hp; unfold after_backtest; cbn [pool];
            apply relabelled_cons|].
    unfold backtests, benchmarks in *. rewrite !omap_app.
    split; [cbn; by rewrite Hn|].
    split.
    + cbn. constructor; [done|].
      unfold after_backtest in Hc. cbn [pool] in Hc.
      eapply Forall_impl; [exact Hc|]. cbn.
      intros call (? & ? & ? & Hq). by rewrite relabel_relabel in Hq.
    + split; [cbn; by rewrite Hbm|].
      apply Forall_app. split; [by repeat constructor|done].
Qed.

(** X7.  With the live flag set, a run returns exactly when every
    requested name is one of the seven registered names. *)
Theorem live_run_returns_iff names w :
  (main env (mapping p) names true w).1 = Ok tt <->
  Forall (fun n => n ∈ registered) names.
Proof.
  rewrite main_returns_iff. split.
  - intros Hok. apply dispatch_all_returns in Hok.
    eapply Forall_impl; [exact Hok|]. intros n Hn. by apply mapping_names in Hn.
  - intros Hreg.
    destruct (dispatch_all_live env p names w)
      as (insts & w' & Hrun & _).
    + eapply Forall_impl; [exact Hreg|]. intros n Hn.
      by apply mapping_names.
    + by rewrite Hrun.
Qed.

(** X8.  With the live flag off, a run returns exactly when every
    requested name is one of the four names whose entry has a data source
    and binds the pool; any other name, registered or not, ends the run
    with an exception. *)
Theorem backtest_run_returns_iff names w :
  (main env (mapping p) names false w).1 = Ok tt <->
  Forall (fun n => n ∈ pool_bound_names_list) names.
Proof.
  rewrite main_returns_iff. split.
  - intros Hok. apply dispatch_all_returns in Hok.
    eapply Forall_impl; [exact Hok|]. intros n Hn.
    by apply pool_bound_names in Hn.
  - intros Hb.
    destruct (dispatch_all_backtest names w) as (w' & evs & Hrun & _).
    + eapply Forall_impl; [exact Hb|]. intros n Hn.
      by apply pool_bound_names.
    + by rewrite Hrun.
Qed.

(** X9.  A backtest run over pool-bound names calls the backtest entry
    point once per name, in request order, each time with budget 40000,
    the window from 2019-02-28 to 2019-12-01 and the initial pool with
    every label set to that name; it computes the SPY benchmark over that
    window once per name, produces no live event, registers nothing, and
    leaves the pool labelled with the last name. *)
Theorem backtest_run_shape names w :
  Forall (pool_bound p) names ->
  let r := main env (mapping p) names false w in
  r.1 = Ok tt /\
  trader r.2 = trader w /\
  pool r.2 = relabelled names (pool w) /\
  exists evs,
    trace r.2 = trace w ++ evs ++ shutdown env /\
    bt_name <$> backtests evs = names /\
    Forall (fun c => bt_budget c = 40000 /\
                     bt_start c = datetime 2019 2 28 /\
                     bt_end c = datetime 2019 12 1 /\
                     bt_pandas_data c
                     = Some (relabel_pool (bt_name c) (pool w)))
           (backtests evs) /\
    benchmarks evs
    = replicate (length names)
        ("SPY", datetime 2019 2 28, datetime 2019 12 1) /\
    Forall (fun ev => live_event ev = false) evs.
Proof.
  intros Hb. cbv zeta. rewrite main_run.
  destruct (dispatch_all_backtest names w Hb)
    as (w' & evs & Hrun & Htr & Htd & Hp & Hn & Hc & Hbm & Hl).
  rewrite Hrun. cbn [fst snd trader pool trace app].
  split; [done|]. split; [done|]. split; [done|].
  exists evs. split; [by rewrite Htr, <- app_assoc|]. by repeat split.
Qed.

(** X14.  With the live flag off, a registered name that cannot be
    backtested stops the batch where it stands: the pool-bound names
    before it have been backtested and benchmarked, in order, the pool
    carries the label of the last of them, and the run ends with the
    attribute error for debt_trading, or with the unsupported-backtest
    error for a name without a data source; nothing is called for that
    name or for the names after it. *)
Theorem backtest_batch_stops pre n post w :
  Forall (pool_bound p) pre ->
  n ∈ ["debt_trading"; "intraday_momentum"; "fast_trading"] ->
  let r := main env (mapping p) (pre ++ n :: post) false w in
  r.1 = Raise (if decide (n = "debt_trading")
               then AttributeError
                      "'NoneType' object has no attribute 'values'"
               else ValueError
                      ("Backtesting is not supported for strategy " +:+ n))
  /\
  pool r.2 = relabelled pre (pool w) /\
  trader r.2 = trader w /\
  exists evs,
    trace r.2 = trace w ++ evs /\
    bt_name <$> backtests evs = pre /\
    benchmarks evs
    = replicate (length pre)
        ("SPY", datetime 2019 2 28, datetime 2019 12 1).
Proof.
  intros Hpre Hn. cbv zeta. rewrite main_run, dispatch_all_app.
  destruct (dispatch_all_backtest pre w Hpre)
    as (w' & evs & Hrun & Htr & Htd & Hp & Hnames & _ & Hbm & _).
  rewrite Hrun. cbn [dispatch_all]. unfold mbind, M_bind.
  assert (Hstop : exists c,
            dispatch env (mapping p) false n w'
            = (Raise (if decide (n = "debt_trading")
                      then AttributeError
                             "'NoneType' object has no attribute 'values'"
                      else ValueError
                             ("Backtesting is not supported for strategy "
                              +:+ n)),
               after_line_172 env c w')).
  { apply elem_of_cons in Hn as [->|Hn].
    { exists DebtTrading.
      apply (dispatch_no_pool env _ _ debt_trading YahooDataBacktesting _
               (PyKwargs ∅) PyNone); [|by vm_compute].
      apply mapping_lookup. do 2 apply list_elem_of_further.
      apply list_elem_of_here. }
    apply elem_of_cons in Hn as [->|Hn].
    { exists IntradayMomentum.
      apply (dispatch_unsupported env _ _ intraday_momentum PyNone _
               (PyKwargs ∅) PyNone); [|by vm_compute].
      apply mapping_lookup. do 3 apply list_elem_of_further.
      apply list_elem_of_here. }
    apply elem_of_cons in Hn as [->|Hn]; [|by apply elem_of_nil in Hn].
    exists FastTrading.
    apply (dispatch_unsupported env _ _ fast_trading PyNone _
             (PyKwargs ∅) PyNone); [|by vm_compute].
    apply mapping_lookup. do 4 apply list_elem_of_further.
    apply list_elem_of_here. }
  destruct Hstop as [c ->]. unfold after_line_172.
  cbn [fst snd pool trader trace].
  split; [done|]. split; [done|]. split; [done|]. by exists evs.
Qed.



End Registry_runs.

(** ** Live runs in detail (lines 85, 172-181) *)

Section Live_runs.
Import Coverage.
Variable env : Env.

Lemma mapping_kwargs p name params c ds pd k cf :
  mapping p !! name = Some params ->
  resolve params = Ok (mkParams (PyClass c) ds pd (PyKwargs k) cf) ->
  k = kwargs_for p name.
Proof.
  intros H Hres. unfold mapping, mapping_items in H.
  apply elem_of_list_to_map_2 in H.
  repeat (apply elem_of_cons in H as [H|H];
          [inversion H; subst; clear H;
           vm_compute in Hres; injection Hres as <- <- <- <- <-;
           by vm_compute
          |]).
  by apply elem_of_nil in H.
Qed.

(** The live loop over registered names, instance by instance. *)
Lemma dispatch_all_live_detail p names : forall w,
  Forall (fun n => is_Some (mapping p !! n)) names ->
  exists insts w',
    dispatch_all env (mapping p) true names w = (Ok tt, w') /\
    trader w' = trader w ++ insts /\
    time_calls w' = (time_calls w + length names)%nat /\
    inst_name <$> insts = names /\
    Forall (fun i => inst_kwargs i = kwargs_for p (inst_name i)) insts /\
    forall i inst,
      insts !! i = Some inst ->
      inst_stats_file inst
      = stats_file_path (class_name (inst_class inst))
          (time_at env (time_calls w + i)).
Proof.
  induction names as [|n names IH]; intros w Hval.
  - exists [], w. cbn. unfold mret, M_ret. rewrite app_nil_r, Nat.add_0_r.
    repeat split; [constructor|]. intros i inst Hi. by destruct i.
  - apply Forall_cons in Hval as [[params Hreg] Hval].
    destruct (mapping_entries p n params Hreg)
      as (c & ds & pd & k & Hres & _).
    cbn [dispatch_all]. unfold mbind, M_bind.
    rewrite (dispatch_live env _ _ _ _ _ _ _ _ w Hreg Hres).
    destruct (IH (after_live env c n k w) Hval)
      as (insts & w' & Hrun & Htd & Htm & Hn & Hk & Hpath).
    rewrite Hrun. eexists (_ :: insts), w'.
    split; [done|].
    split; [by rewrite Htd; cbn; rewrite <- app_assoc|].
    split; [rewrite Htm; cbn; lia|].
    split; [cbn; by rewrite Hn|].
    split.
    + constructor; [|done]. cbn. by eapply mapping_kwargs.
    + intros [|i] inst Hi.
      * injection Hi as <-. cbn. by rewrite Nat.add_0_r.
      * cbn in Hi. rewrite (Hpath i inst Hi). cbn.
        by rewrite Nat.add_succ_r.
Qed.

(** X10.  In a live run over registered names on a pool the loader
    built, every instance named momentum_pandas is constructed with the
    keyword argument [symbols] holding the five stock assets in the order
    of [tickers], and every other instance with no keyword argument. *)
Theorem live_instances_kwargs (fs : filesystem) pool names w :
  load_pool fs = Ok pool ->
  Forall (fun n => n ∈ registered) names ->
  let r := main env (mapping pool) names true w in
  exists insts,
    trader r.2 = trader w ++ insts /\
    inst_name <$> insts = names /\
    Forall (fun i =>
              inst_kwargs i
              = if decide (inst_name i = "momentum_pandas")
                then {[ "symbols" := ticker_asset <$> tickers ]}
                else ∅) insts.
Proof.
  intros Hload Hreg. cbv zeta. rewrite main_run.
  destruct (load_pool_shape fs pool Hload) as (_ & Hkeys & _).
  destruct (dispatch_all_live_detail pool names w)
    as (insts & w' & Hrun & Htd & _ & Hn & Hk & _).
  { eapply Forall_impl; [exact Hreg|]. intros n Hin.
    by apply mapping_names. }
  rewrite Hrun. cbn [fst snd trader]. exists insts.
  split; [done|]. split; [done|].
  eapply Forall_impl; [exact Hk|]. intros i Hi. rewrite Hi.
  unfold kwargs_for. by rewrite Hkeys.
Qed.

(** X11.  A live run over n registered names reads the wall clock n
    times and the perf counter never; the instance built for the i-th
    name carries the stats-file path made of its class name and the i-th
    of those readings. *)
Theorem live_batch_paths p names w :
  Forall (fun n => n ∈ registered) names ->
  let r := main env (mapping p) names true w in
  time_calls r.2 = (time_calls w + length names)%nat /\
  perf_calls r.2 = perf_calls w /\
  exists insts,
    trader r.2 = trader w ++ insts /\
    inst_name <$> insts = names /\
    forall i inst,
      insts !! i = Some inst ->
      inst_stats_file inst
      = stats_file_path (class_name (inst_class inst))
          (time_at env (time_calls w + i)).
Proof.
  intros Hreg. cbv zeta.
  destruct (dispatch_all_untouched env (mapping p) true names w)
    as (_ & _ & _ & _ & Hperf & _).
  rewrite main_run.
  destruct (dispatch_all_live_detail p names w)
    as (insts & w' & Hrun & Htd & Htm & Hn & _ & Hpath).
  { eapply Forall_impl; [exact Hreg|]. intros n Hin.
    by apply mapping_names. }
  rewrite Hrun in *. cbn [fst snd trader time_calls perf_calls] in *.
  split; [done|]. split; [done|]. by exists insts.
Qed.

End Live_runs.

(** ** Stats-file paths (line 172) *)

Section Paths.
Import Coverage.

Lemma string_length_app s t :
  String.length (s +:+ t) = (String.length s + String.length t)%nat.
Proof.
  induction s as [|a s IH]; [done|].
  change (String a s +:+ t) with (String a (s +:+ t)).
  cbn [String.length]. by rewrite IH.
Qed.

Lemma string_app_inv_tail t : forall s1 s2,
  s1 +:+ t = s2 +:+ t -> s1 = s2.
Proof.
  induction s1 as [|a s1 IH]; intros [|b s2] H.
  - done.
  - apply (f_equal String.length) in H.
    rewrite !string_length_app in H. cbn [String.length] in H. lia.
  - apply (f_equal String.length) in H.
    rewrite !string_length_app in H. cbn [String.length] in H. lia.
  - change (String a (s1 +:+ t) = String b (s2 +:+ t)) in H.
    injection H as -> H. f_equal. by apply IH.
Qed.

(** X12.  Two stats-file paths are equal exactly when they were made for
    the same strategy class from clock readings with the same truncated
    second: dispatches of different classes, or in different seconds,
    never share a path. *)
Theorem stats_file_paths_collide_iff c1 c2 t1 t2 :
  stats_file_path (class_name c1) t1 = stats_file_path (class_name c2) t2
  <-> c1 = c2 /\ py_int t1 = py_int t2.
Proof.
  split.
  - unfold stats_file_path. intros H.
    apply (inj (String.app _)) in H.
    destruct c1, c2; cbn [class_name] in H;
      try (cbv [String.append] in H; discriminate);
      (split; [done|]);
      do 2 apply (inj (String.app _)) in H;
      apply string_app_inv_tail in H;
      by apply (inj pretty) in H.
  - intros [-> H]. unfold stats_file_path. by rewrite H.
Qed.

(** X13.  The second in a path is the clock reading rounded toward zero:
    for a reading at or after the epoch it is the whole second the
    reading falls in; for a reading before the epoch it is that second
    plus one, unless the reading is whole. *)
Theorem py_int_truncates t :
  ((0 <= t)%Q ->
     (inject_Z (py_int t) <= t)%Q /\ (t < inject_Z (py_int t) + 1)%Q) /\
  ((t <= 0)%Q ->
     (inject_Z (py_int t) - 1 < t)%Q /\ (t <= inject_Z (py_int t))%Q).
Proof.
  destruct t as [n d]. unfold py_int, Qle, Qlt. cbn.
  rewrite ?Pos.mul_1_l.
  pose proof (Z.quot_rem' n (Z.pos d)) as Hqr.
  pose proof (Z.rem_bound_pos n (Z.pos d)) as Hpos.
  pose proof (Z.rem_bound_pos_neg n (Z.pos d)) as Hneg.
  set (q := Z.quot n (Z.pos d)) in *.
  set (r := Z.rem n (Z.pos d)) in *.
  clearbody q r. split; intros Hs; lia.
Qed.

End Paths.

(** ** The further properties at the sample inputs *)

Import Coverage.

Lemma loaded_pool_structure_witness :
  keys sample_pool = ticker_asset <$> tickers /\
  labels sample_pool = replicate (length tickers) "my_strategy".
Proof.
  destruct (loaded_pool_structure sample_fs sample_pool)
    as (_ & Hk & _ & Hl & _).
  - vm_compute. reflexivity.
  - split; [exact Hk|exact Hl].
Defined.

Lemma backtest_run_shape_witness :
  let r := main sample_env (mapping sample_pool)
             ["buy_and_hold"; "simple"] false (init_world sample_pool) in
  r.1 = Ok tt /\
  pool r.2 = relabel_pool "simple" sample_pool /\
  exists evs,
    trace r.2 = evs ++ shutdown sample_env /\
    bt_name <$> backtests evs = ["buy_and_hold"; "simple"].
Proof.
  destruct (backtest_run_shape sample_env sample_pool
              ["buy_and_hold"; "simple"] (init_world sample_pool))
    as (Hok & _ & Hp & evs & Htr & Hn & _).
  - apply Forall_cons. split.
    + apply pool_bound_names. do 2 apply list_elem_of_further.
      apply list_elem_of_here.
    + apply Forall_cons. split; [|constructor].
      apply pool_bound_names. do 3 apply list_elem_of_further.
      apply list_elem_of_here.
  - cbv zeta. split; [exact Hok|]. split; [exact Hp|].
    exists evs. split; [exact Htr|exact Hn].
Defined.

Lemma live_instances_kwargs_witness :
  let names := ["momentum_pandas"; "simple"] in
  let w := init_world sample_pool in
  let r := main sample_env (mapping sample_pool) names true w in
  exists insts,
    trader r.2 = trader w ++ insts /\
    inst_name <$> insts = names /\
    Forall (fun i =>
              inst_kwargs i
              = if decide (inst_name i = "momentum_pandas")
                then {[ "symbols" := ticker_asset <$> tickers ]}
                else ∅) insts.
Proof.
  apply (live_instances_kwargs sample_env sample_fs sample_pool
           ["momentum_pandas"; "simple"] (init_world sample_pool)).
  - vm_compute. reflexivity.
  - apply Forall_cons. split; [apply list_elem_of_here|].
    apply Forall_cons. split; [|constructor].
    do 6 apply list_elem_of_further. apply list_elem_of_here.
Defined.

Lemma live_batch_paths_witness :
  let names := ["simple"; "diversification"] in
  let w := init_world sample_pool in
  let r := main sample_env (mapping sample_pool) names true w in
  time_calls r.2 = (time_calls w + length names)%nat /\
  perf_calls r.2 = perf_calls w /\
  exists insts,
    trader r.2 = trader w ++ insts /\
    inst_name <$> insts = names /\
    forall i inst,
      insts !! i = Some inst ->
      inst_stats_file inst
      = stats_file_path (class_name (inst_class inst))
          (time_at sample_env (time_calls w + i)).
Proof.
  apply (live_batch_paths sample_env sample_pool
           ["simple"; "diversification"] (init_world sample_pool)).
  apply Forall_cons. split.
  - do 6 apply list_elem_of_further. apply list_elem_of_here.
  - apply Forall_cons. split; [|constructor].
    apply list_elem_of_further, list_elem_of_here.
Defined.

Lemma backtest_batch_stops_witness :
  let r := main sample_env (mapping sample_pool)
             (["simple"] ++ "intraday_momentum" :: ["buy_and_hold"]) false
             (init_world sample_pool) in
  r.1 = Raise (ValueError
                 ("Backtesting is not supported for strategy "
                  +:+ "intraday_momentum")) /\
  pool r.2 = relabel_pool "simple" sample_pool /\
  exists evs,
    trace r.2 = evs /\
    bt_name <$> backtests evs = ["simple"].
Proof.
  destruct (backtest_batch_stops sample_env sample_pool
              ["simple"] "intraday_momentum" ["buy_and_hold"]
              (init_world sample_pool))
    as (Herr & Hp & _ & evs & Htr & Hn & _).
  - apply Forall_cons. split; [|constructor].
    apply pool_bound_names. do 3 apply list_elem_of_further.
    apply list_elem_of_here.
  - apply list_elem_of_further, list_elem_of_here.
  - cbv zeta. split; [exact Herr|]. split; [exact Hp|].
    exists evs. split; [exact Htr|exact Hn].
Defined.

